(** * IEP Harmony file-processing backend: a shallow embedding

    The repository holds three variants of one Express server:

    - [src/server.js]        the basic server                    ([ServerJs])
    - [src/unnamed/part_000] the enhanced server with [/analyze] ([Part000])
    - [src/unnamed/part_001] the enhanced server, no [/analyze]  ([Part001])

    Each variant is embedded as the list of Express layers it registers, in
    source order, and run by one dispatcher ([Express.dispatch]).  The
    JavaScript operations the handlers use live in [JS]; the behaviour of
    the third-party packages the handlers call (cors, express.json, multer,
    mammoth, pdf-parse) is kept apart in [Express] and [Platform].

    Not modelled: console output, request and response headers (so a
    conditional GET, which Express may answer 304, is outside the model),
    HEAD requests, numbers that are not integers, the SIGTERM / SIGINT
    handlers. *)

From Stdlib Require Import Strings.String Strings.Ascii.
From Stdlib Require Import ZArith NArith List Bool Lia.
From Stdlib Require Import DecimalString.
Import ListNotations.

Local Open Scope string_scope.
Local Open Scope Z_scope.

(** ** JavaScript strings and values *)

Module JS.

(** A JavaScript string is a sequence of UTF-16 code units; [string] holds
    the code units 0..255 (ASCII and Latin-1), one per character. *)

(** [s.length] *)
Definition length (s : string) : Z := Z.of_nat (String.length s).

(** [String.prototype.toLowerCase] on one code unit: A-Z, and the Latin-1
    capitals U+00C0..U+00DE except the multiplication sign U+00D7. *)
Definition lowerChar (c : ascii) : ascii :=
  let n := nat_of_ascii c in
  if ((65 <=? n) && (n <=? 90))%nat then ascii_of_nat (n + 32)
  else if ((192 <=? n) && (n <=? 222) && negb (n =? 215))%nat
       then ascii_of_nat (n + 32)
       else c.

Fixpoint toLowerCase (s : string) : string :=
  match s with
  | EmptyString => EmptyString
  | String c s' => String (lowerChar c) (toLowerCase s')
  end.

(** [s.endsWith(searchString)]: the last [searchString.length] code units of
    [s] are compared with [searchString]. *)
Definition endsWith (s searchString : string) : bool :=
  let n := String.length s in
  let m := String.length searchString in
  ((m <=? n)%nat && (substring (n - m) m s =? searchString)%string)%bool.

(** WhiteSpace and LineTerminator code units below 256: TAB, LF, VT, FF, CR,
    SPACE and NO-BREAK SPACE. *)
Definition isWhiteSpace (c : ascii) : bool :=
  let n := nat_of_ascii c in
  (((9 <=? n) && (n <=? 13)) || (n =? 32) || (n =? 160))%nat.

Fixpoint trimStart (s : string) : string :=
  match s with
  | EmptyString => EmptyString
  | String c s' => if isWhiteSpace c then trimStart s' else s
  end.

Fixpoint trimEnd (s : string) : string :=
  match s with
  | EmptyString => EmptyString
  | String c s' =>
      match trimEnd s' with
      | EmptyString => if isWhiteSpace c then EmptyString else String c EmptyString
      | t => String c t
      end
  end.

(** [s.trim()] *)
Definition trim (s : string) : string := trimEnd (trimStart s).

(** [haystack.includes(needle)], as a proposition. *)
Definition includes (haystack needle : string) : Prop :=
  exists pre post, haystack = pre ++ needle ++ post.

(** Values.  Numbers are integers: the ones the handlers compute (lengths,
    status codes, millisecond differences) and the integers of a JSON
    body. *)
#[warnings="-register-all"]
Inductive value : Type :=
| VUndefined
| VNull
| VBool (b : bool)
| VNum (z : Z)
| VStr (s : string)
| VArr (elems : list value)
| VObj (props : list (string * value)).

(** Own-property lookup in the property list of an object. *)
Fixpoint lookup (k : string) (props : list (string * value)) : option value :=
  match props with
  | [] => None
  | (k', v) :: rest => if (k =? k')%string then Some v else lookup k rest
  end.

(** [v.k] for a [v] that is neither [undefined] nor [null], and a [k] that
    is a name (not an array index). *)
Definition get (v : value) (k : string) : value :=
  match v with
  | VObj props => match lookup k props with Some w => w | None => VUndefined end
  | VStr s => if (k =? "length")%string then VNum (length s) else VUndefined
  | VArr l => if (k =? "length")%string then VNum (Z.of_nat (List.length l))
              else VUndefined
  | _ => VUndefined
  end.

(** [v?.length] *)
Definition opt_length (v : value) : value :=
  match v with
  | VUndefined | VNull => VUndefined
  | _ => get v "length"
  end.

(** ToBoolean *)
Definition truthy (v : value) : bool :=
  match v with
  | VUndefined | VNull => false
  | VBool b => b
  | VNum z => negb (z =? 0)
  | VStr s => negb (s =? "")%string
  | VArr _ | VObj _ => true
  end.

(** [a || b] *)
Definition logical_or (a b : value) : value := if truthy a then a else b.

(** *** Number::toString for an integer

    Below [2^53] every integer is a Number and is printed digit by digit.
    From there on a Number is printed with the fewest digits that read back
    as the same Number, followed by zeros up to 21 digits and in exponent
    form beyond: [2^64] is [18446744073709552000], [10^21] is [1e+21]. *)

(** The decimal digits of an integer. *)
Definition decimal (z : Z) : string := NilZero.string_of_int (Z.to_int z).

(** The Number nearest to the integer [z]: a Number holds 53 significant
    bits, and a tie goes to the even significand. *)
Definition to_Number (z : Z) : Z :=
  let a := Z.abs z in
  if a <? 2 ^ 53 then z
  else
    let e := Z.log2 a - 52 in
    let m := Z.shiftr a e in
    let rest := a - Z.shiftl m e in
    let half := 2 ^ (e - 1) in
    let m := if (half <? rest) || ((rest =? half) && Z.odd m) then m + 1 else m in
    Z.sgn z * Z.shiftl m e.

(** The integer [z] is a Number: it fits in 53 significant bits and is
    finite. *)
Definition is_Number (z : Z) : bool :=
  (to_Number z =? z) && (Z.abs z <? 2 ^ 1024).

(** The integer [v] reads back as the Number [x], for [2^53 <= x]: it is
    nearer to [x] than to the Numbers next to [x], a tie going to the even
    significand. *)
Definition reads_back (x v : Z) : bool :=
  let e := Z.log2 x - 52 in
  let m := Z.shiftr x e in
  let ulp := 2 ^ e in
  let below := if m =? 2 ^ 52 then ulp else 2 * ulp in
  let above := 2 * ulp in
  if Z.even m
  then (4 * x - below <=? 4 * v) && (4 * v <=? 4 * x + above)
  else (4 * x - below <? 4 * v) && (4 * v <? 4 * x + above).

(** The decimals [s * 10^q], with [k] digits in [s], that read back as [x]. *)
Definition candidates (x k : Z) : list (Z * Z) :=
  let n := Z.of_nat (String.length (decimal x)) in
  flat_map
    (fun q =>
       if q <? 0 then []
       else
         let s0 := x / 10 ^ q in
         filter (fun c => let s := fst c in
                          (10 ^ (k - 1) <=? s) && (s <? 10 ^ k)
                          && reads_back x (s * 10 ^ q))
                [(s0, q); (s0 + 1, q)])
    [n - k; n - k + 1].

(** The candidate nearest to [x]. *)
Definition nearest (x : Z) (cs : list (Z * Z)) : option (Z * Z) :=
  fold_left
    (fun best c =>
       match best with
       | None => Some c
       | Some b =>
           let d (p : Z * Z) := Z.abs (fst p * 10 ^ snd p - x) in
           if (d c <? d b) || ((d c =? d b) && Z.even (fst c)) then Some c
           else Some b
       end)
    cs None.

(** The first number of digits, among [ks], for which there is a candidate. *)
Fixpoint shortest (x : Z) (ks : list Z) : option (Z * Z) :=
  match ks with
  | [] => None
  | k :: rest =>
      match nearest x (candidates x k) with
      | Some c => Some c
      | None => shortest x rest
      end
  end.

Fixpoint zeros (n : nat) : string :=
  match n with
  | O => ""
  | S n' => "0" ++ zeros n'
  end.

(** [s * 10^q] written out: in full up to 21 digits, with an exponent
    beyond. *)
Definition print (s q : Z) : string :=
  let ds := decimal s in
  let n := Z.of_nat (String.length ds) + q in
  if n <=? 21 then ds ++ zeros (Z.to_nat q)
  else
    match ds with
    | String d EmptyString => String d ("e+" ++ decimal (n - 1))
    | String d more => String d ("." ++ more ++ "e+" ++ decimal (n - 1))
    | EmptyString => ""
    end.

Definition string_of_Z (z : Z) : string :=
  let x := Z.abs (to_Number z) in
  let sign := if z <? 0 then "-" else "" in
  if x <? 2 ^ 53 then decimal z
  else if 2 ^ 1024 <=? x then sign ++ "Infinity"
  else
    match shortest x [1; 2; 3; 4; 5; 6; 7; 8; 9; 10; 11; 12; 13; 14; 15; 16; 17] with
    | Some (s, q) => sign ++ print s q
    | None => sign ++ decimal x
    end.

(** [Array.prototype.join] on already converted elements. *)
Fixpoint join (sep : string) (l : list string) : string :=
  match l with
  | [] => ""
  | [x] => x
  | x :: rest => x ++ sep ++ join sep rest
  end.

(** ToString, which a template literal applies to each substitution. *)
Fixpoint ToString (v : value) : string :=
  match v with
  | VUndefined => "undefined"
  | VNull => "null"
  | VBool true => "true"
  | VBool false => "false"
  | VNum z => string_of_Z z
  | VStr s => s
  | VArr l =>
      join "," (map (fun e => match e with
                              | VUndefined | VNull => ""
                              | _ => ToString e
                              end) l)
  | VObj _ => "[object Object]"
  end.

(** What [JSON.stringify] keeps of a value: a property whose value is
    [undefined] is dropped, an [undefined] array element becomes [null]. *)
Fixpoint wire (v : value) : value :=
  match v with
  | VArr l =>
      VArr (map (fun e => match e with VUndefined => VNull | _ => wire e end) l)
  | VObj props =>
      VObj ((fix keep (ps : list (string * value)) :=
               match ps with
               | [] => []
               | (k, VUndefined) :: rest => keep rest
               | (k, w) :: rest => (k, wire w) :: keep rest
               end) props)
  | _ => v
  end.

(** An error object: [MulterError]s carry a [code], errors of body-parser a
    [status]; every error has a [message]. *)
Inductive Error : Type :=
| MulterError (code : string) (message : string)
| HttpError (status : Z) (message : string)
| PlainError (message : string).

Definition message (e : Error) : string :=
  match e with
  | MulterError _ m | HttpError _ m | PlainError m => m
  end.

(** [e instanceof multer.MulterError && e.code === c] *)
Definition is_MulterError_with_code (e : Error) (c : string) : bool :=
  match e with
  | MulterError code _ => (code =? c)%string
  | _ => false
  end.

End JS.


(** ** What the server takes from its surroundings

    The two extraction packages, the clock, the process and the engine are
    not part of the repository: a handler sees them through a [Platform]. *)

(** How an awaited library call settles. *)
Inductive outcome : Type :=
| Resolves (v : JS.value)
| Rejects (e : JS.Error).

Record Platform : Type := {
  (** [(await mammoth.extractRawText({ buffer })).value] *)
  mammoth_extractRawText : list Byte.byte -> outcome;
  (** [(await pdf(buffer)).text] *)
  pdf : list Byte.byte -> outcome;
  (** the k-th reading of [Date.now()] while one request is handled *)
  Date_now : nat -> Z;
  (** [new Date().toISOString()] *)
  toISOString : string;
  (** [process.uptime()] *)
  process_uptime : JS.value;
  (** [process.env] *)
  process_env : string -> option string;
  (** the message of the [TypeError] the engine raises at an expression *)
  TypeError_message : string -> string;
  (** [req.body] of a request whose body [express.json()] did not parse *)
  unparsed_body : JS.value
}.

(** ** Express: requests, responses, layers and the dispatcher *)

Module Express.

(** The request methods that are modelled.  (A HEAD request, which Express
    answers like a GET without sending the body, is not.) *)
Inductive Method : Type := GET | POST | PUT | PATCH | DELETE | OPTIONS.

Definition Method_eqb (a b : Method) : bool :=
  match a, b with
  | GET, GET | POST, POST | PUT, PUT
  | PATCH, PATCH | DELETE, DELETE | OPTIONS, OPTIONS => true
  | _, _ => false
  end.

(** A file part of a multipart body; multer's memory storage hands it to the
    handler as [req.file]. *)
Record File : Type := {
  fieldname : string;
  originalname : string;
  buffer : list Byte.byte
}.

(** The body of a request as the body parsers see it: none, a body sent as
    [application/json] (its length in bytes, and the value it parses to,
    [None] when it is not JSON), or the file parts of a
    [multipart/form-data] body. *)
Inductive Payload : Type :=
| NoPayload
| JsonPayload (bytes : Z) (parsed : option JS.value)
| MultipartPayload (files : list File).

Record Request : Type := {
  method : Method;
  path : string;
  payload : Payload
}.

(** [req]: the request with the fields middleware sets on it. *)
Record Req : Type := {
  request : Request;
  body : JS.value;
  file : option File
}.

Definition incoming (r : Request) : Req :=
  {| request := r; body := JS.VUndefined; file := None |}.

Inductive Content : Type :=
| Json (v : JS.value)
| Html
| Empty.

Record Response : Type := {
  status : Z;
  content : Content
}.

(** [res.status(code).json(obj)] *)
Definition json (code : Z) (obj : JS.value) : Response :=
  {| status := code; content := Json (JS.wire obj) |}.

(** The calls a request makes into the extraction packages, in order. *)
Inductive LibCall : Type :=
| CallMammoth (buffer : list Byte.byte)
| CallPdf (buffer : list Byte.byte).

(** A block of handler code: it completes normally with a value, returns a
    response, or throws; the library calls made on the way are recorded. *)
Inductive Completion (A : Type) : Type :=
| Normal (a : A)
| Return (r : Response)
| Throw (e : JS.Error).
Arguments Normal {A} a.
Arguments Return {A} r.
Arguments Throw {A} e.

Definition Run (A : Type) : Type := Completion A * list LibCall.

Definition ret {A} (a : A) : Run A := (Normal a, []).

Definition bind {A B} (m : Run A) (k : A -> Run B) : Run B :=
  match m with
  | (Normal a, t) => let (c, t') := k a in (c, (t ++ t')%list)
  | (Return r, t) => (Return r, t)
  | (Throw e, t) => (Throw e, t)
  end.

(** [return res.status(code).json(obj)] *)
Definition respond {A} (code : Z) (obj : JS.value) : Run A :=
  (Return (json code obj), []).

Definition throw {A} (e : JS.Error) : Run A := (Throw e, []).

(** [try { block } catch (error) { handler }] *)
Definition try_catch {A} (block : Run A) (handler : JS.Error -> Run A) : Run A :=
  match block with
  | (Throw e, t) => let (c, t') := handler e in (c, (t ++ t')%list)
  | other => other
  end.

(** [await call], where the call settles as [o]. *)
Definition await (call : LibCall) (o : outcome) : Run JS.value :=
  match o with
  | Resolves v => (Normal v, [call])
  | Rejects e => (Throw e, [call])
  end.

(** [v.k]: a [TypeError] when [v] is [undefined] or [null]. *)
Definition member (P : Platform) (expr : string) (v : JS.value) (k : string)
  : Run JS.value :=
  match v with
  | JS.VUndefined | JS.VNull => throw (JS.PlainError (TypeError_message P expr))
  | _ => ret (JS.get v k)
  end.

(** [v.trim()]: a [TypeError] unless [v] is a string. *)
Definition call_trim (P : Platform) (expr : string) (v : JS.value)
  : Run JS.value :=
  match v with
  | JS.VStr s => ret (JS.VStr (JS.trim s))
  | _ => throw (JS.PlainError (TypeError_message P expr))
  end.

(** [v?.trim()] *)
Definition opt_trim (P : Platform) (expr : string) (v : JS.value)
  : Run JS.value :=
  match v with
  | JS.VUndefined | JS.VNull => ret JS.VUndefined
  | _ => call_trim P expr v
  end.

(** What a layer tells the dispatcher: the response was sent, [next()] was
    called, or [next(err)]. *)
Inductive Signal : Type :=
| Responded (r : Response)
| Next
| NextErr (e : JS.Error).

Definition Step : Type := (Req * Signal) * list LibCall.

Definition Middleware : Type := Req -> Step.
Definition ErrorMiddleware : Type := JS.Error -> Req -> Step.

(** A route handler [(req, res) => { ... }] as a middleware: Express passes
    what the handler throws to [next]. *)
Definition handler (h : Req -> Run Response) : Middleware :=
  fun req =>
    match h req with
    | (Normal r, t) | (Return r, t) => ((req, Responded r), t)
    | (Throw e, t) => ((req, NextErr e), t)
    end.

Definition error_handler (h : JS.Error -> Req -> Run Response)
  : ErrorMiddleware :=
  fun e req => handler (h e) req.

Inductive Layer : Type :=
| Use (mw : Middleware)
| Route (m : Method) (route : string) (chain : list Middleware)
| UseError (mw : ErrorMiddleware).

Definition method_matches (m requested : Method) : bool :=
  Method_eqb m requested.

(** Route paths are matched with Express's defaults: case-insensitively
    ([case sensitive routing] off) and with an optional trailing slash
    ([strict routing] off). *)
Definition path_matches (route p : string) : bool :=
  let stem := if JS.endsWith route "/"
              then substring 0 (String.length route - 1) route
              else route in
  let stem := JS.toLowerCase stem in
  let p := JS.toLowerCase p in
  ((p =? stem) || (p =? stem ++ "/"))%string.

Definition route_matches (m : Method) (route : string) (req : Req) : bool :=
  method_matches m (method (request req))
  && path_matches route (path (request req)).

(** The handlers of one route, run until one does not call [next()]. *)
Fixpoint run_chain (chain : list Middleware) (req : Req) : Step :=
  match chain with
  | [] => ((req, Next), [])
  | mw :: rest =>
      match mw req with
      | ((req', Next), t) =>
          let (out, t') := run_chain rest req' in (out, (t ++ t')%list)
      | stop => stop
      end
  end.

(** Express's final handler: 404 when the stack is exhausted, the error's
    status (500 when it has none) when an error is left over; both with an
    HTML page. *)
Definition finalhandler (err : option JS.Error) : Response :=
  match err with
  | None => {| status := 404; content := Html |}
  | Some (JS.HttpError code _) => {| status := code; content := Html |}
  | Some _ => {| status := 500; content := Html |}
  end.

(** The stack is walked in registration order.  Without a pending error the
    error middleware is skipped; with one, everything else is. *)
Fixpoint dispatch (stack : list Layer) (err : option JS.Error) (req : Req)
  : Response * list LibCall :=
  match stack with
  | [] => (finalhandler err, [])
  | layer :: rest =>
      let continue (s : Step) :=
        match s with
        | ((_, Responded r), t) => (r, t)
        | ((req', Next), t) =>
            let (r, t') := dispatch rest None req' in (r, (t ++ t')%list)
        | ((req', NextErr e), t) =>
            let (r, t') := dispatch rest (Some e) req' in (r, (t ++ t')%list)
        end in
      match layer, err with
      | Use mw, None => continue (mw req)
      | Route m route chain, None =>
          if route_matches m route req
          then continue (run_chain chain req)
          else dispatch rest None req
      | UseError mw, Some e => continue (mw e req)
      | _, _ => dispatch rest err req
      end
  end.

(** What the dispatcher does with the outcome of a layer ([continue] above). *)
Definition resume (rest : list Layer) (s : Step) : Response * list LibCall :=
  match s with
  | ((_, Responded r), t) => (r, t)
  | ((req', Next), t) =>
      let (r, t') := dispatch rest None req' in (r, (t ++ t')%list)
  | ((req', NextErr e), t) =>
      let (r, t') := dispatch rest (Some e) req' in (r, (t ++ t')%list)
  end.

(** The method and path of the request match a registered route. *)
Fixpoint routed (stack : list Layer) (req : Req) : bool :=
  match stack with
  | [] => false
  | Route m route _ :: rest => route_matches m route req || routed rest req
  | _ :: rest => routed rest req
  end.

(** The middleware hands the request on with [next()]. *)
Definition passes (mw : Middleware) (req : Req) : Prop :=
  snd (fst (mw req)) = Next.

(** A field of the JSON body of a response ([undefined] when the body is not
    JSON or has no such field). *)
Definition field (r : Response) (k : string) : JS.value :=
  match content r with
  | Json (JS.VObj props) =>
      match JS.lookup k props with Some v => v | None => JS.VUndefined end
  | _ => JS.VUndefined
  end.

(** The response of a handler that did not throw. *)
Definition settled (m : Run Response) : option (Response * list LibCall) :=
  match m with
  | (Normal r, t) | (Return r, t) => Some (r, t)
  | (Throw _, _) => None
  end.

(** *** The packages the servers mount *)

(** [cors()]: a preflight (OPTIONS) request is answered 204 with an empty
    body; every other request goes on. *)
Definition cors : Middleware :=
  fun req =>
    match method (request req) with
    | OPTIONS => ((req, Responded {| status := 204; content := Empty |}), [])
    | _ => ((req, Next), [])
    end.

(** The [limit] option of [express.json()], by default ['100kb']. *)
Definition json_limit : Z := 100 * 1024.

(** [express.json()]: a JSON body is parsed into [req.body].  A body of more
    than [limit] bytes is refused with a 413 error before it is parsed; a
    body that is not JSON, or whose top level is neither an object nor an
    array (strict mode), with a 400 error.  Both are passed to [next]. *)
Definition express_json (P : Platform) : Middleware :=
  fun req =>
    let set v := {| request := request req; body := v; file := file req |} in
    match payload (request req) with
    | JsonPayload bytes parsed =>
        if json_limit <? bytes then
          ((req, NextErr (JS.HttpError 413 "request entity too large")), [])
        else
          match parsed with
          | Some (JS.VObj props) => ((set (JS.VObj props), Next), [])
          | Some (JS.VArr l) => ((set (JS.VArr l), Next), [])
          | _ => ((req, NextErr (JS.HttpError 400 "Unexpected token in JSON")), [])
          end
    | _ => ((set (unparsed_body P), Next), [])
    end.

(** [multer({ storage: multer.memoryStorage(), limits: { fileSize } })] *)
Record Multer : Type := {
  fileSize : option Z
}.

(** The file parts multer looks at: a part without a file name is skipped,
    before its field name and its size are tested. *)
Definition named_files (files : list File) : list File :=
  filter (fun f => negb (originalname f =? "")%string) files.

(** [upload.single(name)]: the one named file part of a multipart body
    becomes [req.file].  A part under another field name or a second file
    part is a [LIMIT_UNEXPECTED_FILE] error, a file longer than
    [limits.fileSize] a [LIMIT_FILE_SIZE] error (a file of exactly that
    length is accepted, as multer does from version 2.3.0 on); a request
    without named file part goes on with [req.file] undefined. *)
Definition single (upload : Multer) (name : string) : Middleware :=
  fun req =>
    match payload (request req) with
    | MultipartPayload files =>
        match named_files files with
        | f :: more =>
            if negb (fieldname f =? name)%string then
              ((req, NextErr (JS.MulterError "LIMIT_UNEXPECTED_FILE" "Unexpected field")), [])
            else if match fileSize upload with
                    | Some limit => limit <? Z.of_nat (List.length (buffer f))
                    | None => false
                    end then
              ((req, NextErr (JS.MulterError "LIMIT_FILE_SIZE" "File too large")), [])
            else match more with
                 | [] => (({| request := request req; body := body req;
                              file := Some f |}, Next), [])
                 | _ :: _ =>
                     ((req, NextErr (JS.MulterError "LIMIT_UNEXPECTED_FILE"
                                                    "Unexpected field")), [])
                 end
        | [] => ((req, Next), [])
        end
    | _ => ((req, Next), [])
    end.

End Express.

Notation "x <- m ;; k" := (Express.bind m (fun x => k))
  (at level 61, m at next level, right associativity).

(** [process.env.NAME] *)
Definition env (P : Platform) (name : string) : JS.value :=
  match process_env P name with
  | Some s => JS.VStr s
  | None => JS.VUndefined
  end.

(** ** src/unnamed/part_000: the enhanced server with /analyze *)

Module Part000.
Import JS Express.

Definition port (P : Platform) : value :=
  logical_or (env P "PORT") (VNum 3001).

Definition upload : Multer :=
  {| fileSize := Some (10 * 1024 * 1024) |}.

(** [app.get('/health', ...)] *)
Definition get_health (P : Platform) (req : Req) : Run Response :=
  ret (json 200 (VObj [("status", VStr "healthy");
                       ("timestamp", VStr (toISOString P));
                       ("uptime", process_uptime P)])).

(** [app.get('/', ...)] *)
Definition get_root (req : Req) : Run Response :=
  ret (json 200 (VObj [("message", VStr "IEP Harmony File Processing Server")])).

(** [app.post('/upload', upload.single('file'), async (req, res) => ...)] *)
Definition post_upload (P : Platform) (req : Req) : Run Response :=
  let startTime := Date_now P 0 in
  try_catch
    (match file req with
     | None =>
         respond 400 (VObj [("error", VStr "No file uploaded.");
                            ("timestamp", VStr (toISOString P))])
     | Some f =>
         let buffer := buffer f in
         let originalname := originalname f in
         let fileSize := Z.of_nat (List.length buffer) in
         extractedText <-
           (if endsWith (toLowerCase originalname) ".docx" then
              try_catch
                (await (CallMammoth buffer) (mammoth_extractRawText P buffer))
                (fun docxError =>
                   respond 500 (VObj [("error", VStr "Failed to process DOCX file.");
                                      ("details", VStr (message docxError))]))
            else if endsWith (toLowerCase originalname) ".pdf" then
              try_catch
                (await (CallPdf buffer) (pdf P buffer))
                (fun pdfError =>
                   respond 500 (VObj [("error", VStr "Failed to process PDF file.");
                                      ("details", VStr (message pdfError))]))
            else
              respond 400 (VObj [("error", VStr "Unsupported file type.");
                                 ("supportedTypes",
                                  VArr [VStr ".docx"; VStr ".pdf"])])) ;;
         trimmed <- opt_trim P "extractedText?.trim" extractedText ;;
         if negb (truthy trimmed) then
           extractedLength <- member P "extractedText.length" extractedText "length" ;;
           respond 422 (VObj [("error", VStr "No text extracted.");
                              ("extractedLength", extractedLength)])
         else
           let processingTime := Date_now P 1 - startTime in
           extractedLength <- member P "extractedText.length" extractedText "length" ;;
           ret (json 200
                  (VObj [("text", extractedText);
                         ("metadata",
                          VObj [("originalName", VStr originalname);
                                ("fileSize", VNum fileSize);
                                ("extractedLength", extractedLength);
                                ("processingTime", VNum processingTime);
                                ("timestamp", VStr (toISOString P))])]))
     end)
    (fun error =>
       ret (json 500 (VObj [("error", VStr "Unexpected error during file processing.");
                            ("details", VStr (message error))]))).

(** [app.post('/analyze', ...)] *)
Definition post_analyze (P : Platform) (req : Req) : Run Response :=
  try_catch
    (accommodations <- member P "req.body" (body req) "accommodations" ;;
     lessonPlan <- member P "req.body" (body req) "lessonPlan" ;;
     ret (json 200
            (VObj [("message", VStr "Analysis received.");
                   ("summary",
                    VStr ("Accommodations and lesson plan received ("
                          ++ ToString (logical_or (opt_length accommodations) (VNum 0))
                          ++ " / "
                          ++ ToString (logical_or (opt_length lessonPlan) (VNum 0))
                          ++ " characters)."));
                   ("received", VObj [("accommodations", accommodations);
                                      ("lessonPlan", lessonPlan)])])))
    (fun error =>
       ret (json 500 (VObj [("error", VStr "Failed to analyze input.");
                            ("details", VStr (message error))]))).

(** [app.use((error, req, res, next) => ...)] *)
Definition on_error (P : Platform) (error : Error) (req : Req) : Run Response :=
  if is_MulterError_with_code error "LIMIT_FILE_SIZE" then
    respond 413 (VObj [("error", VStr "File too large. Max size is 10MB.")])
  else
    ret (json 500 (VObj [("error", VStr "Internal server error");
                         ("timestamp", VStr (toISOString P))])).

Definition availableEndpoints : value :=
  VArr [VStr "GET /"; VStr "GET /health"; VStr "POST /upload";
        VStr "POST /analyze"].

(** [app.use((req, res) => ...)], the 404 handler *)
Definition not_found (req : Req) : Run Response :=
  ret (json 404 (VObj [("error", VStr "Endpoint not found");
                       ("availableEndpoints", availableEndpoints)])).

Definition app (P : Platform) : list Layer :=
  [ Use cors;
    Use (express_json P);
    Route GET "/health" [handler (get_health P)];
    Route GET "/" [handler get_root];
    Route POST "/upload" [single upload "file"; handler (post_upload P)];
    Route POST "/analyze" [handler (post_analyze P)];
    UseError (error_handler (on_error P));
    Use (handler not_found) ].

Definition serve (P : Platform) (r : Request) : Response * list LibCall :=
  dispatch (app P) None (incoming r).

End Part000.

(** ** src/unnamed/part_001: the enhanced server without /analyze *)

Module Part001.
Import JS Express.

Definition port (P : Platform) : value :=
  logical_or (env P "PORT") (VNum 3001).

Definition upload : Multer :=
  {| fileSize := Some (10 * 1024 * 1024) |}.

(** [app.get('/health', ...)] *)
Definition get_health (P : Platform) (req : Req) : Run Response :=
  ret (json 200 (VObj [("status", VStr "healthy");
                       ("timestamp", VStr (toISOString P));
                       ("uptime", process_uptime P)])).

(** [app.get('/', ...)] *)
Definition get_root (req : Req) : Run Response :=
  ret (json 200 (VObj [("message", VStr "IEP Harmony File Processing Server")])).

(** [extractedText.trim().length === 0] *)
Definition trims_to_nothing (P : Platform) (extractedText : value) : Run bool :=
  trimmed <- call_trim P "extractedText.trim" extractedText ;;
  len <- member P "extractedText.trim().length" trimmed "length" ;;
  ret (match len with VNum z => z =? 0 | _ => false end).

(** [app.post('/upload', upload.single('file'), async (req, res) => ...)] *)
Definition post_upload (P : Platform) (req : Req) : Run Response :=
  let startTime := Date_now P 0 in
  try_catch
    (match file req with
     | None =>
         respond 400 (VObj [("error", VStr "No file uploaded.");
                            ("timestamp", VStr (toISOString P))])
     | Some f =>
         let buffer := buffer f in
         let originalname := originalname f in
         let fileSize := Z.of_nat (List.length buffer) in
         extractedText <-
           (if endsWith (toLowerCase originalname) ".docx" then
              try_catch
                (await (CallMammoth buffer) (mammoth_extractRawText P buffer))
                (fun docxError =>
                   respond 500
                     (VObj [("error", VStr "Failed to process DOCX file. The file may be corrupted or in an unsupported format.");
                            ("details", VStr (message docxError))]))
            else if endsWith (toLowerCase originalname) ".pdf" then
              try_catch
                (await (CallPdf buffer) (pdf P buffer))
                (fun pdfError =>
                   respond 500
                     (VObj [("error", VStr "Failed to process PDF file. The file may be corrupted, password-protected, or contain only images.");
                            ("details", VStr (message pdfError))]))
            else
              respond 400
                (VObj [("error", VStr "Unsupported file type. Please upload a .docx or .pdf file.");
                       ("supportedTypes", VArr [VStr ".docx"; VStr ".pdf"])])) ;;
         nothing <- (if negb (truthy extractedText) then ret true
                     else trims_to_nothing P extractedText) ;;
         if (nothing : bool) then
           extractedLength <- member P "extractedText.length" extractedText "length" ;;
           respond 422
             (VObj [("error", VStr "No text content could be extracted from the file. The file may be empty or contain only images.");
                    ("extractedLength", extractedLength)])
         else
           let processingTime := Date_now P 1 - startTime in
           extractedLength <- member P "extractedText.length" extractedText "length" ;;
           ret (json 200
                  (VObj [("text", extractedText);
                         ("metadata",
                          VObj [("originalName", VStr originalname);
                                ("fileSize", VNum fileSize);
                                ("extractedLength", extractedLength);
                                ("processingTime", VNum processingTime);
                                ("timestamp", VStr (toISOString P))])]))
     end)
    (fun error =>
       let processingTime := Date_now P 1 - startTime in
       ret (json 500
              (VObj [("error", VStr "An unexpected error occurred while processing the file.");
                     ("details", VStr (message error));
                     ("processingTime", VNum processingTime);
                     ("timestamp", VStr (toISOString P))]))).

(** [app.use((error, req, res, next) => ...)] *)
Definition on_error (P : Platform) (error : Error) (req : Req) : Run Response :=
  if is_MulterError_with_code error "LIMIT_FILE_SIZE" then
    respond 413 (VObj [("error", VStr "File too large. Maximum size is 10MB.");
                       ("maxSize", VStr "10MB")])
  else
    ret (json 500 (VObj [("error", VStr "Internal server error");
                         ("timestamp", VStr (toISOString P))])).

Definition availableEndpoints : value :=
  VArr [VStr "GET /"; VStr "GET /health"; VStr "POST /upload"].

(** [app.use((req, res) => ...)], the 404 handler *)
Definition not_found (req : Req) : Run Response :=
  ret (json 404 (VObj [("error", VStr "Endpoint not found");
                       ("availableEndpoints", availableEndpoints)])).

Definition app (P : Platform) : list Layer :=
  [ Use cors;
    Route GET "/health" [handler (get_health P)];
    Route GET "/" [handler get_root];
    Route POST "/upload" [single upload "file"; handler (post_upload P)];
    UseError (error_handler (on_error P));
    Use (handler not_found) ].

Definition serve (P : Platform) (r : Request) : Response * list LibCall :=
  dispatch (app P) None (incoming r).

End Part001.

(** ** src/server.js: the basic server *)

Module ServerJs.
Import JS Express.

Definition port : value := VNum 3001.

Definition upload : Multer := {| fileSize := None |}.

(** [app.post('/upload', upload.single('file'), async (req, res) => ...)] *)
Definition post_upload (P : Platform) (req : Req) : Run Response :=
  try_catch
    (match file req with
     | None => respond 400 (VObj [("error", VStr "No file uploaded.")])
     | Some f =>
         let buffer := buffer f in
         let originalname := originalname f in
         extractedText <-
           (if endsWith originalname ".docx" then
              await (CallMammoth buffer) (mammoth_extractRawText P buffer)
            else if endsWith originalname ".pdf" then
              await (CallPdf buffer) (pdf P buffer)
            else
              respond 400
                (VObj [("error", VStr "Unsupported file type. Please upload a .docx or .pdf file.")])) ;;
         ret (json 200 (VObj [("text", extractedText)]))
     end)
    (fun error =>
       ret (json 500 (VObj [("error", VStr "Failed to process file.")]))).

Definition app (P : Platform) : list Layer :=
  [ Use cors;
    Route POST "/upload" [single upload "file"; handler (post_upload P)] ].

Definition serve (P : Platform) (r : Request) : Response * list LibCall :=
  dispatch (app P) None (incoming r).

End ServerJs.

(** ** The requests the statements are about *)

Module Requests.
Import JS Express.

(** One file sent to [POST /upload] as [multipart/form-data]. *)
Definition post_file (f : File) : Request :=
  {| method := POST; path := "/upload"; payload := MultipartPayload [f] |}.

(** A JSON document of [bytes] bytes sent by POST to the path [p]. *)
Definition post_json (p : string) (bytes : Z) (v : value) : Request :=
  {| method := POST; path := p; payload := JsonPayload bytes (Some v) |}.

Definition get_nonexistent : Request :=
  {| method := GET; path := "/nonexistent"; payload := NoPayload |}.

End Requests.

(** ** Sample surroundings and files *)

Module Samples.
Import JS Express.

(** Every document extracts to [text]. *)
Definition reads (text : string) : Platform :=
  {| mammoth_extractRawText := fun _ => Resolves (VStr text);
     pdf := fun _ => Resolves (VStr text);
     Date_now := fun k => 1700000000000 + 25 * Z.of_nat k;
     toISOString := "2023-11-14T22:13:20.000Z";
     process_uptime := VNum 12;
     process_env := fun _ => None;
     TypeError_message := fun expr => "Cannot read properties of undefined";
     unparsed_body := VObj [] |}.

(** Both libraries fail with [message] on every document. *)
Definition rejects (message : string) : Platform :=
  {| mammoth_extractRawText := fun _ => Rejects (PlainError message);
     pdf := fun _ => Rejects (PlainError message);
     Date_now := fun k => 1700000000000 + 25 * Z.of_nat k;
     toISOString := "2023-11-14T22:13:20.000Z";
     process_uptime := VNum 12;
     process_env := fun _ => None;
     TypeError_message := fun expr => "Cannot read properties of undefined";
     unparsed_body := VObj [] |}.

Definition with_env (P : Platform) (vars : string -> option string) : Platform :=
  {| mammoth_extractRawText := mammoth_extractRawText P;
     pdf := pdf P;
     Date_now := Date_now P;
     toISOString := toISOString P;
     process_uptime := process_uptime P;
     process_env := vars;
     TypeError_message := TypeError_message P;
     unparsed_body := unparsed_body P |}.

Definition bytes : list Byte.byte := [Byte.x50; Byte.x4b; Byte.x03; Byte.x04].

Definition named (name : string) (content : list Byte.byte) : File :=
  {| fieldname := "file"; originalname := name; buffer := content |}.

(** One byte more than 10 MiB. *)
Definition oversized : list Byte.byte :=
  repeat Byte.x00 (Z.to_nat (10 * 1024 * 1024 + 1)).

(** An environment in which only [PORT] is set. *)
Definition PORT_is (v : string) (name : string) : option string :=
  if (name =? "PORT")%string then Some v else None.

End Samples.

(** ** Notions the statements and their proofs use *)

Module Notions.
Import JS Express.

(** The last code unit of a string. *)
Fixpoint last_char (s : string) : option ascii :=
  match s with
  | EmptyString => None
  | String c EmptyString => Some c
  | String _ s' => last_char s'
  end.

(** The summary of [/analyze] around the two counts. *)
Definition summary_text (accommodations lessonPlan : string) : string :=
  "Accommodations and lesson plan received (" ++ accommodations ++ " / "
  ++ lessonPlan ++ " characters).".

(** A response that is not a 200 and has a JSON body carries a string
    under [error]. *)
Definition error_is_reported (r : Response) : Prop :=
  status r <> 200 ->
  forall v, content r = Json v -> exists message, field r "error" = VStr message.

(** A property of every response a middleware sends. *)
Definition sends (Q : Response -> Prop) (mw : Middleware) : Prop :=
  forall req req' r t, mw req = ((req', Responded r), t) -> Q r.

Definition layer_sends (Q : Response -> Prop) (l : Layer) : Prop :=
  match l with
  | Use mw => sends Q mw
  | Route _ _ chain => Forall (sends Q) chain
  | UseError mw => forall e, sends Q (mw e)
  end.

(** A block keeps [Q] when the response it returns satisfies [Q] and the
    value it completes with satisfies [N]. *)
Definition keeps {A} (Q : Response -> Prop) (N : A -> Prop) (m : Run A) : Prop :=
  match fst m with
  | Normal a => N a
  | Return r => Q r
  | Throw _ => True
  end.

Definition any {A} (a : A) : Prop := True.

End Notions.

(** ** Further notions: what a request makes the libraries do, JSON values *)

Module Observations.
Import JS Express.

(** [v == null]: [undefined] or [null]. *)
Definition nullish (v : value) : bool :=
  match v with
  | VUndefined | VNull => true
  | _ => false
  end.

(** A value [JSON.parse] can produce: no [undefined] anywhere in it, and
    every number in it is a Number. *)
Fixpoint is_json (v : value) : bool :=
  match v with
  | VUndefined => false
  | VNum z => is_Number z
  | VArr l =>
      (fix all (es : list value) : bool :=
         match es with
         | [] => true
         | e :: rest => is_json e && all rest
         end) l
  | VObj props =>
      (fix all (ps : list (string * value)) : bool :=
         match ps with
         | [] => true
         | (_, w) :: rest => is_json w && all rest
         end) props
  | _ => true
  end.

(** A field that holds a JSON object. *)
Definition is_object (v : option value) : bool :=
  match v with
  | Some (VObj _) => true
  | _ => false
  end.

(** What a field that is not an object counts for: the length of a string,
    the number of elements of an array, and 0 otherwise. *)
Definition counted (v : option value) : Z :=
  match v with
  | Some (VStr s) => JS.length s
  | Some (VArr l) => Z.of_nat (List.length l)
  | _ => 0
  end.

(** The request carries exactly one file part with a file name, [f]. *)
Definition sole_file (r : Request) (f : File) : Prop :=
  exists files, payload r = MultipartPayload files /\ named_files files = [f].

(** [req.file], when set, is the one named file part of the request. *)
Definition linked (req : Req) : Prop :=
  match file req with
  | Some f => sole_file (request req) f
  | None => True
  end.

(** The library calls [t] a request [r] may cause: none, or one call on the
    buffer of the one named file posted to [/upload]. *)
Definition extraction_of (r : Request) (t : list LibCall) : Prop :=
  t = [] \/
  exists f,
    sole_file r f /\
    method r = POST /\
    path_matches "/upload" (path r) = true /\
    (t = [CallMammoth (buffer f)] \/ t = [CallPdf (buffer f)]).

(** A step that keeps the request, keeps [req.file] linked to it, and calls
    the libraries only when it answers, and then as [T] allows. *)
Definition quiet (T : list LibCall -> Prop) (req : Req) (s : Step) : Prop :=
  request (fst (fst s)) = request req /\
  linked (fst (fst s)) /\
  match snd (fst s) with
  | Responded _ => T (snd s)
  | _ => snd s = []
  end.

Definition layer_quiet (T : Request -> list LibCall -> Prop) (l : Layer) : Prop :=
  match l with
  | Use mw => forall req, linked req -> quiet (T (request req)) req (mw req)
  | Route m route chain =>
      Forall (fun mw => forall req,
                  linked req -> route_matches m route req = true ->
                  quiet (T (request req)) req (mw req)) chain
  | UseError mw =>
      forall e req, linked req -> quiet (T (request req)) req (mw e req)
  end.

(** The calls of a handler on [req]: it does not throw, and it calls a
    library at most once, on the buffer of [req.file]. *)
Definition calls_of_handler (req : Req) (m : Run Response) : Prop :=
  match m with
  | (Throw _, _) => False
  | (_, t) =>
      t = [] \/
      exists f, file req = Some f /\
                (t = [CallMammoth (buffer f)] \/ t = [CallPdf (buffer f)])
  end.


(** Both libraries resolve with [v] on every document. *)
Definition resolves (v : value) : Platform :=
  {| mammoth_extractRawText := fun _ => Resolves v;
     pdf := fun _ => Resolves v;
     Date_now := fun k => 1700000000000 + 25 * Z.of_nat k;
     toISOString := "2023-11-14T22:13:20.000Z";
     process_uptime := VNum 12;
     process_env := fun _ => None;
     TypeError_message := fun expr => "Cannot read properties of undefined";
     unparsed_body := VUndefined |}.

(** A request with the given method, path and body. *)
Definition request_of (m : Method) (p : string) (pl : Payload) : Request :=
  {| method := m; path := p; payload := pl |}.

End Observations.


(** * Properties *)

(** ** Strings: suffixes, lower-casing, trimming *)

Section StringFacts.
Import Notions.

Lemma length_app (a b : string) :
  String.length (a ++ b) = (String.length a + String.length b)%nat.
Proof. induction a as [|c a IH]; simpl; [reflexivity | now rewrite IH]. Qed.

Lemma substring_whole (s : string) : substring 0 (String.length s) s = s.
Proof. induction s as [|c s IH]; simpl; [reflexivity | now rewrite IH]. Qed.

Lemma substring_skip (pre s : string) (m : nat) :
  substring (String.length pre) m (pre ++ s) = substring 0 m s.
Proof. induction pre as [|c pre IH]; simpl; [reflexivity | exact IH]. Qed.

Lemma substring_split (s : string) (k : nat) :
  (k <= String.length s)%nat ->
  s = substring 0 k s ++ substring k (String.length s - k) s.
Proof.
  revert k; induction s as [|c s IH]; intros k Hk; simpl in *.
  - destruct k; reflexivity.
  - destruct k as [|k]; simpl.
    + now rewrite substring_whole.
    + f_equal. apply IH. lia.
Qed.

(** [endsWith] holds exactly of the strings that are something followed by
    the search string. *)
Lemma endsWith_app (pre suf : string) : JS.endsWith (pre ++ suf) suf = true.
Proof.
  unfold JS.endsWith. rewrite length_app.
  replace (String.length pre + String.length suf - String.length suf)%nat
    with (String.length pre) by lia.
  rewrite substring_skip, substring_whole, String.eqb_refl.
  rewrite andb_true_r. apply Nat.leb_le. lia.
Qed.

Lemma endsWith_inv (s suf : string) :
  JS.endsWith s suf = true -> exists pre, s = pre ++ suf.
Proof.
  unfold JS.endsWith. intros H.
  apply andb_true_iff in H as [Hle Heq].
  apply Nat.leb_le in Hle. apply String.eqb_eq in Heq.
  exists (substring 0 (String.length s - String.length suf) s).
  pose proof (substring_split s (String.length s - String.length suf)) as Hs.
  replace (String.length s - (String.length s - String.length suf))%nat
    with (String.length suf) in Hs by lia.
  rewrite Heq in Hs. apply Hs. lia.
Qed.

Lemma toLowerCase_app (a b : string) :
  JS.toLowerCase (a ++ b) = JS.toLowerCase a ++ JS.toLowerCase b.
Proof. induction a as [|c a IH]; simpl; [reflexivity | now rewrite IH]. Qed.

(** A suffix that is already lower-case survives lower-casing. *)
Lemma endsWith_toLowerCase (s suf : string) :
  JS.toLowerCase suf = suf ->
  JS.endsWith s suf = true -> JS.endsWith (JS.toLowerCase s) suf = true.
Proof.
  intros Hlow H. apply endsWith_inv in H as [pre ->].
  rewrite toLowerCase_app, Hlow. apply endsWith_app.
Qed.

Lemma last_char_app (pre s : string) :
  s <> EmptyString -> last_char (pre ++ s) = last_char s.
Proof.
  intros Hs. induction pre as [|c pre IH]; simpl; [reflexivity|].
  rewrite IH. destruct (pre ++ s) eqn:E; [|reflexivity].
  destruct pre; simpl in E; [contradiction | discriminate].
Qed.

Lemma endsWith_last_char (s suf : string) :
  suf <> EmptyString ->
  JS.endsWith s suf = true -> last_char s = last_char suf.
Proof.
  intros Hs H. apply endsWith_inv in H as [pre ->]. now apply last_char_app.
Qed.

(** Only a name that is not empty has a suffix that is not empty. *)
Lemma endsWith_nonempty (s suf : string) :
  suf <> EmptyString -> JS.endsWith s suf = true -> s <> EmptyString.
Proof.
  intros Hsuf H ->. destruct suf; [contradiction | discriminate].
Qed.

(** No name ends in both suffixes. *)
Lemma endsWith_pdf_not_docx (s : string) :
  JS.endsWith s ".pdf" = true -> JS.endsWith s ".docx" = false.
Proof.
  intros Hp. destruct (JS.endsWith s ".docx") eqn:Hd; [|reflexivity].
  apply endsWith_last_char in Hp; [|discriminate].
  apply endsWith_last_char in Hd; [|discriminate].
  rewrite Hp in Hd. discriminate.
Qed.

(** A name whose lower-casing misses a lower-case suffix misses it too. *)
Lemma endsWith_lower_false (s suf : string) :
  JS.toLowerCase suf = suf ->
  JS.endsWith (JS.toLowerCase s) suf = false -> JS.endsWith s suf = false.
Proof.
  intros Hlow H. destruct (JS.endsWith s suf) eqn:E; [|reflexivity].
  apply (endsWith_toLowerCase _ _ Hlow) in E. congruence.
Qed.

End StringFacts.

(** ** The dispatcher, one layer at a time *)

Section Dispatcher.
Import Express.

Variables (rest : list Layer) (req : Req).

Lemma dispatch_nil err : dispatch [] err req = (finalhandler err, []).
Proof. reflexivity. Qed.

Lemma dispatch_Use mw :
  dispatch (Use mw :: rest) None req = resume rest (mw req).
Proof. reflexivity. Qed.

Lemma dispatch_Route m route chain :
  dispatch (Route m route chain :: rest) None req =
  if route_matches m route req then resume rest (run_chain chain req)
  else dispatch rest None req.
Proof. reflexivity. Qed.

Lemma dispatch_UseError mw :
  dispatch (UseError mw :: rest) None req = dispatch rest None req.
Proof. reflexivity. Qed.

Lemma dispatch_err_Use e mw :
  dispatch (Use mw :: rest) (Some e) req = dispatch rest (Some e) req.
Proof. reflexivity. Qed.

Lemma dispatch_err_Route e m route chain :
  dispatch (Route m route chain :: rest) (Some e) req =
  dispatch rest (Some e) req.
Proof. reflexivity. Qed.

Lemma dispatch_err_UseError e mw :
  dispatch (UseError mw :: rest) (Some e) req = resume rest (mw e req).
Proof. reflexivity. Qed.

Lemma resume_Responded req' r t :
  resume rest ((req', Responded r), t) = (r, t).
Proof. reflexivity. Qed.

Lemma resume_Next req' :
  resume rest ((req', Next), []) = dispatch rest None req'.
Proof. simpl. now destruct (dispatch rest None req'). Qed.

Lemma resume_NextErr req' e :
  resume rest ((req', NextErr e), []) = dispatch rest (Some e) req'.
Proof. simpl. now destruct (dispatch rest (Some e) req'). Qed.

(** A route whose only handler answers. *)
Lemma run_chain_handler h r t :
  settled (h req) = Some (r, t) ->
  run_chain [handler h] req = ((req, Responded r), t).
Proof.
  unfold settled, handler. simpl.
  destruct (h req) as [[a | a | e] t0]; intros [= <- <-]; reflexivity.
Qed.

End Dispatcher.

Create Rewrite HintDb dispatch.
#[local] Hint Rewrite dispatch_nil dispatch_Use dispatch_Route dispatch_UseError
  dispatch_err_Use dispatch_err_Route dispatch_err_UseError
  resume_Responded resume_Next resume_NextErr : dispatch.

(** Walks the stack of a variant for a request with a known method and
    path: each route test is decided by evaluation. *)
Ltac decide_route :=
  match goal with
  | |- context [Express.route_matches ?m ?p ?r] =>
      let b := eval vm_compute in (Express.route_matches m p r) in
      change (Express.route_matches m p r) with b; cbv iota
  end.

Ltac walk :=
  repeat first
    [ rewrite dispatch_Use;
      cbn [Express.cors Express.express_json Express.incoming Express.request
           Express.method Express.payload Express.body Express.file
           Requests.post_file Requests.post_json];
      rewrite resume_Next
    | rewrite dispatch_Route; decide_route
    | rewrite dispatch_UseError ].

(** Rewrites with what is known of the file name, of the libraries and of
    the extracted text, and evaluates. *)
Ltac use_facts :=
  progress repeat match goal with
    | E : JS.endsWith _ _ = _ |- _ => rewrite E
    | E : mammoth_extractRawText _ _ = _ |- _ => rewrite E
    | E : pdf _ _ = _ |- _ => rewrite E
    | E : JS.trim _ = _ |- _ => rewrite E
    | E : String.eqb _ _ = _ |- _ => rewrite E
    | E : Z.eqb _ _ = _ |- _ => rewrite E
    end.

Ltac evaluate :=
  cbn [Express.file Express.originalname Express.buffer];
  repeat (use_facts; cbn -[Samples.oversized Z.mul Z.sub Z.of_nat List.length]).

(** ** Uploads *)

Section Uploads.
Import JS Express Requests Samples.

(** multer keeps a file part that has a name and skips one that has none. *)
Lemma named_files_one (f : File) :
  originalname f <> "" -> named_files [f] = [f].
Proof.
  intros Hname. apply String.eqb_neq in Hname.
  unfold named_files. cbn [filter]. now rewrite Hname.
Qed.

Lemma named_files_nameless (f : File) :
  originalname f = "" -> named_files [f] = [].
Proof.
  intros Hname. unfold named_files. cbn [filter]. now rewrite Hname.
Qed.

(** [single] with the one named file part of the request, under the field
    name it expects and within the size limit. *)
Lemma single_accepts (M : Multer) (req : Req) files (f : File) :
  payload (request req) = MultipartPayload files ->
  named_files files = [f] ->
  fieldname f = "file" ->
  match fileSize M with
  | Some limit => Z.of_nat (List.length (buffer f)) <= limit
  | None => True
  end ->
  single M "file" req =
  (({| request := request req; body := body req; file := Some f |}, Next), []).
Proof.
  intros Hp Hfiles Hn Hs. unfold single. rewrite Hp, Hfiles, Hn. simpl.
  destruct (fileSize M) as [limit|]; [|reflexivity].
  apply Z.ltb_ge in Hs. rewrite Hs. reflexivity.
Qed.

Lemma single_too_large (M : Multer) (req : Req) files (f : File) more limit :
  payload (request req) = MultipartPayload files ->
  named_files files = f :: more ->
  fieldname f = "file" ->
  fileSize M = Some limit ->
  limit < Z.of_nat (List.length (buffer f)) ->
  single M "file" req =
  ((req, NextErr (MulterError "LIMIT_FILE_SIZE" "File too large")), []).
Proof.
  intros Hp Hfiles Hn HM Hs. unfold single. rewrite Hp, Hfiles, Hn, HM. simpl.
  apply Z.ltb_lt in Hs. rewrite Hs. reflexivity.
Qed.

(** Without a named file part, [single] leaves [req.file] undefined. *)
Lemma single_without_file (M : Multer) (req : Req) files :
  payload (request req) = MultipartPayload files ->
  named_files files = [] ->
  single M "file" req = ((req, Next), []).
Proof. intros Hp Hfiles. unfold single. now rewrite Hp, Hfiles. Qed.

Lemma run_chain_upload (mw : Middleware) h req req' r t :
  mw req = ((req', Next), []) ->
  settled (h req') = Some (r, t) ->
  run_chain [mw; handler h] req = ((req', Responded r), t).
Proof.
  intros Hmw Hh. cbn [run_chain]. rewrite Hmw.
  fold (run_chain [handler h] req'). rewrite (run_chain_handler _ _ _ _ Hh).
  reflexivity.
Qed.

(** An upload that multer accepts is answered by the handler. *)
Lemma Part000_upload_accepted P f r t :
  originalname f <> "" ->
  fieldname f = "file" ->
  Z.of_nat (List.length (buffer f)) <= 10 * 1024 * 1024 ->
  settled (Part000.post_upload P
             {| request := post_file f; body := unparsed_body P;
                file := Some f |}) = Some (r, t) ->
  Part000.serve P (post_file f) = (r, t).
Proof.
  intros Hname Hn Hs Hh.
  unfold Part000.serve, Part000.app. walk.
  erewrite run_chain_upload; [reflexivity | | exact Hh].
  apply single_accepts with (files := [f]);
    [reflexivity | now apply named_files_one | exact Hn | exact Hs].
Qed.

Lemma Part001_upload_accepted P f r t :
  originalname f <> "" ->
  fieldname f = "file" ->
  Z.of_nat (List.length (buffer f)) <= 10 * 1024 * 1024 ->
  settled (Part001.post_upload P
             {| request := post_file f; body := VUndefined;
                file := Some f |}) = Some (r, t) ->
  Part001.serve P (post_file f) = (r, t).
Proof.
  intros Hname Hn Hs Hh.
  unfold Part001.serve, Part001.app. walk.
  erewrite run_chain_upload; [reflexivity | | exact Hh].
  apply single_accepts with (files := [f]);
    [reflexivity | now apply named_files_one | exact Hn | exact Hs].
Qed.

Lemma ServerJs_upload_accepted P f r t :
  originalname f <> "" ->
  fieldname f = "file" ->
  settled (ServerJs.post_upload P
             {| request := post_file f; body := VUndefined;
                file := Some f |}) = Some (r, t) ->
  ServerJs.serve P (post_file f) = (r, t).
Proof.
  intros Hname Hn Hh.
  unfold ServerJs.serve, ServerJs.app. walk.
  erewrite run_chain_upload; [reflexivity | | exact Hh].
  apply single_accepts with (files := [f]);
    [reflexivity | now apply named_files_one | exact Hn | exact I].
Qed.

(** A file part without a name is as good as none: the handler finds
    [req.file] undefined, whatever the field and the size of the part. *)
Lemma Part000_nameless P f :
  originalname f = "" ->
  Part000.serve P (post_file f) =
  (json 400 (VObj [("error", VStr "No file uploaded.");
                   ("timestamp", VStr (toISOString P))]), []).
Proof.
  intros Hname. unfold Part000.serve, Part000.app. walk.
  erewrite run_chain_upload;
    [ reflexivity
    | apply single_without_file with (files := [f]);
      [reflexivity | now apply named_files_nameless]
    | reflexivity ].
Qed.

Lemma Part001_nameless P f :
  originalname f = "" ->
  Part001.serve P (post_file f) =
  (json 400 (VObj [("error", VStr "No file uploaded.");
                   ("timestamp", VStr (toISOString P))]), []).
Proof.
  intros Hname. unfold Part001.serve, Part001.app. walk.
  erewrite run_chain_upload;
    [ reflexivity
    | apply single_without_file with (files := [f]);
      [reflexivity | now apply named_files_nameless]
    | reflexivity ].
Qed.

Lemma ServerJs_nameless P f :
  originalname f = "" ->
  ServerJs.serve P (post_file f) =
  (json 400 (VObj [("error", VStr "No file uploaded.")]), []).
Proof.
  intros Hname. unfold ServerJs.serve, ServerJs.app. walk.
  erewrite run_chain_upload;
    [ reflexivity
    | apply single_without_file with (files := [f]);
      [reflexivity | now apply named_files_nameless]
    | reflexivity ].
Qed.

(** An upload that exceeds the limit of the enhanced servers is answered by
    their error middleware. *)
Lemma Part000_too_large P f :
  originalname f <> "" ->
  fieldname f = "file" ->
  10 * 1024 * 1024 < Z.of_nat (List.length (buffer f)) ->
  Part000.serve P (post_file f) =
  (json 413 (VObj [("error", VStr "File too large. Max size is 10MB.")]), []).
Proof.
  intros Hname Hn Hs. unfold Part000.serve, Part000.app. walk.
  cbn [run_chain].
  erewrite (single_too_large Part000.upload _ [f] f []);
    [ | reflexivity | now apply named_files_one | exact Hn | reflexivity
      | exact Hs].
  rewrite resume_NextErr.
  now autorewrite with dispatch.
Qed.

Lemma Part001_too_large P f :
  originalname f <> "" ->
  fieldname f = "file" ->
  10 * 1024 * 1024 < Z.of_nat (List.length (buffer f)) ->
  Part001.serve P (post_file f) =
  (json 413 (VObj [("error", VStr "File too large. Maximum size is 10MB.");
                   ("maxSize", VStr "10MB")]), []).
Proof.
  intros Hname Hn Hs. unfold Part001.serve, Part001.app. walk.
  cbn [run_chain].
  erewrite (single_too_large Part001.upload _ [f] f []);
    [ | reflexivity | now apply named_files_one | exact Hn | reflexivity
      | exact Hs].
  rewrite resume_NextErr.
  now autorewrite with dispatch.
Qed.

Lemma length_zero s : JS.length s = 0 <-> s = "".
Proof.
  unfold JS.length.
  destruct s; simpl; split; intros; try reflexivity; discriminate.
Qed.

Lemma oversized_length :
  Z.of_nat (List.length oversized) = 10 * 1024 * 1024 + 1.
Proof. unfold oversized. rewrite repeat_length. apply Z2Nat.id. lia. Qed.

(** part_000 answers 413 to the oversized sample under any name that is
    not empty. *)
Lemma Part000_oversized_status P name :
  name <> "" ->
  status (fst (Part000.serve P (post_file (named name oversized)))) = 413.
Proof.
  intros Hname.
  assert (H : 10 * 1024 * 1024 < Z.of_nat (List.length oversized)).
  { rewrite oversized_length. lia. }
  pose proof (Part000_too_large P (named name oversized) Hname eq_refl H) as E.
  exact (f_equal (fun a => status (fst a)) E).
Qed.

Lemma Part000_oversized P name :
  name <> "" ->
  10 * 1024 * 1024 < Z.of_nat (List.length oversized) /\
  Part000.serve P (post_file (named name oversized)) =
  (json 413 (VObj [("error", VStr "File too large. Max size is 10MB.")]), []).
Proof.
  intros Hname.
  assert (H : 10 * 1024 * 1024 < Z.of_nat (List.length oversized)).
  { rewrite oversized_length. lia. }
  split; [exact H|].
  apply Part000_too_large; [exact Hname | reflexivity | exact H].
Qed.

End Uploads.

(** Settles an accepted upload in each variant from the handler's run. *)
Ltac by_handler :=
  first
    [ erewrite Part000_upload_accepted;
      [ | assumption | assumption | assumption
        | unfold Part000.post_upload; evaluate; reflexivity ]
    | erewrite Part001_upload_accepted;
      [ | assumption | assumption | assumption
        | unfold Part001.post_upload, Part001.trims_to_nothing; evaluate;
          reflexivity ]
    | erewrite ServerJs_upload_accepted;
      [ | assumption | assumption
        | unfold ServerJs.post_upload; evaluate; reflexivity ] ].

(** The name of a file that ends in [.docx] or [.pdf] is not empty. *)
Ltac name_given f :=
  match goal with
  | E : JS.endsWith (Express.originalname f) _ = true |- _ =>
      assert (Hname : Express.originalname f <> EmptyString)
        by (refine (endsWith_nonempty _ _ _ E); discriminate)
  end.

(** The cases of an upload: the suffix of [name], then how the chosen
    library settles and what kind of value it resolves with. *)
Ltac on_suffix P f name :=
  destruct (JS.endsWith name ".docx") eqn:Hd;
  [ destruct (mammoth_extractRawText P (Express.buffer f))
      as [[| |b|z|s|l|o]|e] eqn:Hlib
  | destruct (JS.endsWith name ".pdf") eqn:Hp;
    [ destruct (pdf P (Express.buffer f)) as [[| |b|z|s|l|o]|e] eqn:Hlib | ] ].

Section UploadResults.
Import JS Express Requests Samples.

(** C1, server by server.

    A file sent to [POST /upload] in the field [file], of at
    most 10 MiB, whose name ends in [.docx] or [.pdf] and whose extraction
    yields a text that is not blank: the enhanced servers (part_000,
    part_001) answer 200 with [{ text, metadata }], where
    [metadata.originalName] is the file name, [metadata.fileSize] the byte
    length of the buffer and [metadata.extractedLength] the length of the
    text; the basic server (server.js) answers 200 with [{ text }] alone. *)
Theorem upload_success (P : Platform) (f : File) (text : string) :
  fieldname f = "file" ->
  Z.of_nat (List.length (buffer f)) <= 10 * 1024 * 1024 ->
  (endsWith (originalname f) ".docx" = true /\
   mammoth_extractRawText P (buffer f) = Resolves (VStr text)) \/
  (endsWith (originalname f) ".pdf" = true /\
   pdf P (buffer f) = Resolves (VStr text)) ->
  trim text <> "" ->
  let enhanced :=
    json 200
      (VObj [("text", VStr text);
             ("metadata",
              VObj [("originalName", VStr (originalname f));
                    ("fileSize", VNum (Z.of_nat (List.length (buffer f))));
                    ("extractedLength", VNum (JS.length text));
                    ("processingTime", VNum (Date_now P 1 - Date_now P 0));
                    ("timestamp", VStr (toISOString P))])]) in
  fst (Part000.serve P (post_file f)) = enhanced /\
  fst (Part001.serve P (post_file f)) = enhanced /\
  fst (ServerJs.serve P (post_file f)) = json 200 (VObj [("text", VStr text)]).
Proof.
  intros Hn Hs Hext Htext enhanced.
  assert (Hne : (trim text =? "")%string = false) by now apply String.eqb_neq.
  assert (Ht : (text =? "")%string = false).
  { apply String.eqb_neq. intros ->. now apply Htext. }
  assert (Hlen : (JS.length (trim text) =? 0) = false).
  { apply Z.eqb_neq. now rewrite length_zero. }
  destruct Hext as [[Hd Hlib] | [Hp Hlib]]; name_given f.
  - pose proof (endsWith_toLowerCase _ _ eq_refl Hd) as Hld.
    repeat split; by_handler; reflexivity.
  - pose proof (endsWith_toLowerCase _ _ eq_refl Hp) as Hlp.
    pose proof (endsWith_pdf_not_docx _ Hp) as Hd.
    pose proof (endsWith_pdf_not_docx _ Hlp) as Hld.
    repeat split; by_handler; reflexivity.
Qed.

Lemma upload_success_witness :
  fst (Part000.serve (reads "Hello") (post_file (named "Plan.docx" bytes))) =
  json 200
    (VObj [("text", VStr "Hello");
           ("metadata",
            VObj [("originalName", VStr "Plan.docx");
                  ("fileSize", VNum 4);
                  ("extractedLength", VNum 5);
                  ("processingTime", VNum 25);
                  ("timestamp", VStr "2023-11-14T22:13:20.000Z")])]) /\
  fst (Part001.serve (reads "Hello") (post_file (named "Plan.docx" bytes))) =
  json 200
    (VObj [("text", VStr "Hello");
           ("metadata",
            VObj [("originalName", VStr "Plan.docx");
                  ("fileSize", VNum 4);
                  ("extractedLength", VNum 5);
                  ("processingTime", VNum 25);
                  ("timestamp", VStr "2023-11-14T22:13:20.000Z")])]) /\
  fst (ServerJs.serve (reads "Hello") (post_file (named "Plan.docx" bytes))) =
  json 200 (VObj [("text", VStr "Hello")]).
Proof.
  apply (upload_success (reads "Hello") (named "Plan.docx" bytes) "Hello").
  - reflexivity.
  - vm_compute. discriminate.
  - left. split; reflexivity.
  - discriminate.
Defined.

(** server.js answers a valid [.docx] upload with the text alone: the body
    has no [metadata].  part_000 answers 413 to a valid [.docx] of more
    than 10 MiB. *)
Lemma valid_upload_not_always_metadata :
  let P := reads "Hello" in
  let f := named "Plan.docx" bytes in
  let big := named "big.docx" oversized in
  (endsWith (originalname f) ".docx" = true /\
   mammoth_extractRawText P (buffer f) = Resolves (VStr "Hello") /\
   ServerJs.serve P (post_file f) =
   ({| status := 200; content := Json (VObj [("text", VStr "Hello")]) |},
    [CallMammoth bytes]) /\
   field (fst (ServerJs.serve P (post_file f))) "metadata" = VUndefined)
  /\
  (endsWith (originalname big) ".docx" = true /\
   mammoth_extractRawText P (buffer big) = Resolves (VStr "Hello") /\
   status (fst (Part000.serve P (post_file big))) = 413).
Proof.
  split; [repeat split|]. split; [reflexivity|]. split; [reflexivity|].
  exact (Part000_oversized_status (reads "Hello") "big.docx" ltac:(discriminate)).
Qed.

(** C2, server by server.

    A file sent to [POST /upload] in the field [file], with a file name
    that is not empty, of at most 10 MiB, whose lower-cased name ends
    neither in [.docx] nor in [.pdf]: every variant answers 400 without
    calling an extraction library, whatever the bytes; the enhanced servers
    (part_000, part_001) list [supportedTypes: [".docx", ".pdf"]], the basic
    server (server.js) sends the error message alone. *)
Theorem upload_unsupported_type (P : Platform) (f : File) :
  fieldname f = "file" ->
  originalname f <> "" ->
  Z.of_nat (List.length (buffer f)) <= 10 * 1024 * 1024 ->
  endsWith (toLowerCase (originalname f)) ".docx" = false ->
  endsWith (toLowerCase (originalname f)) ".pdf" = false ->
  Part000.serve P (post_file f) =
  (json 400 (VObj [("error", VStr "Unsupported file type.");
                   ("supportedTypes", VArr [VStr ".docx"; VStr ".pdf"])]),
   []) /\
  Part001.serve P (post_file f) =
  (json 400
     (VObj [("error", VStr "Unsupported file type. Please upload a .docx or .pdf file.");
            ("supportedTypes", VArr [VStr ".docx"; VStr ".pdf"])]),
   []) /\
  ServerJs.serve P (post_file f) =
  (json 400
     (VObj [("error", VStr "Unsupported file type. Please upload a .docx or .pdf file.")]),
   []).
Proof.
  intros Hn Hname Hs Hld Hlp.
  pose proof (endsWith_lower_false _ _ eq_refl Hld) as Hd.
  pose proof (endsWith_lower_false _ _ eq_refl Hlp) as Hp.
  repeat split; by_handler; reflexivity.
Qed.

Lemma upload_unsupported_type_witness :
  field (fst (Part000.serve (reads "Hello") (post_file (named "notes.txt" bytes))))
    "supportedTypes" = VArr [VStr ".docx"; VStr ".pdf"] /\
  snd (Part000.serve (reads "Hello") (post_file (named "notes.txt" bytes))) = [].
Proof.
  destruct (upload_unsupported_type (reads "Hello") (named "notes.txt" bytes))
    as [H _].
  - reflexivity.
  - discriminate.
  - vm_compute. discriminate.
  - reflexivity.
  - reflexivity.
  - rewrite H. split; reflexivity.
Defined.

(** server.js rejects [notes.txt] with 400, but its body carries no
    [supportedTypes].  part_000 answers 413, not 400, to a [notes.txt] of
    more than 10 MiB, and it hands [NOTES.DOCX], which does not end in
    [.docx] as written, to mammoth.  A file part without a file name ends
    in neither suffix, but multer skips it: part_000 answers 400 for want of
    a file, and lists no [supportedTypes]. *)
Lemma unsupported_upload_not_always_supportedTypes :
  let r := fst (ServerJs.serve (reads "Hello") (post_file (named "notes.txt" bytes))) in
  let big := fst (Part000.serve (reads "Hello") (post_file (named "notes.txt" oversized))) in
  let nameless := fst (Part000.serve (reads "Hello") (post_file (named "" bytes))) in
  endsWith "notes.txt" ".docx" = false /\
  endsWith "notes.txt" ".pdf" = false /\
  (status r = 400 /\
   field r "supportedTypes" = VUndefined /\
   field r "supportedTypes" <> VArr [VStr ".docx"; VStr ".pdf"]) /\
  (status big = 413 /\ field big "supportedTypes" = VUndefined) /\
  (endsWith "NOTES.DOCX" ".docx" = false /\
   endsWith "NOTES.DOCX" ".pdf" = false /\
   snd (Part000.serve (reads "Hello") (post_file (named "NOTES.DOCX" bytes))) =
   [CallMammoth bytes]) /\
  (endsWith (toLowerCase "") ".docx" = false /\
   endsWith (toLowerCase "") ".pdf" = false /\
   status nameless = 400 /\
   field nameless "error" = VStr "No file uploaded." /\
   field nameless "supportedTypes" = VUndefined).
Proof.
  split; [reflexivity|]. split; [reflexivity|]. split; [|split; [|split]].
  - repeat split. discriminate.
  - split;
      [exact (Part000_oversized_status (reads "Hello") "notes.txt"
                ltac:(discriminate))|].
    exact (f_equal (fun a => field (fst a) "supportedTypes")
             (proj2 (Part000_oversized (reads "Hello") "notes.txt"
                       ltac:(discriminate)))).
  - repeat split.
  - repeat split.
Qed.

(** C3, server by server.

    A file sent to [POST /upload] in the field [file], of at
    most 10 MiB, whose name ends in [.docx] or [.pdf] and whose extraction
    yields a text that is empty or all white space: the enhanced servers
    (part_000, part_001) answer 422 with [extractedLength] the length of
    the text as extracted, before trimming; the basic server (server.js)
    does not look at the text and answers 200 with it. *)
Theorem upload_no_text (P : Platform) (f : File) (text : string) :
  fieldname f = "file" ->
  Z.of_nat (List.length (buffer f)) <= 10 * 1024 * 1024 ->
  (endsWith (originalname f) ".docx" = true /\
   mammoth_extractRawText P (buffer f) = Resolves (VStr text)) \/
  (endsWith (originalname f) ".pdf" = true /\
   pdf P (buffer f) = Resolves (VStr text)) ->
  trim text = "" ->
  fst (Part000.serve P (post_file f)) =
  json 422 (VObj [("error", VStr "No text extracted.");
                  ("extractedLength", VNum (JS.length text))]) /\
  fst (Part001.serve P (post_file f)) =
  json 422
    (VObj [("error", VStr "No text content could be extracted from the file. The file may be empty or contain only images.");
           ("extractedLength", VNum (JS.length text))]) /\
  fst (ServerJs.serve P (post_file f)) = json 200 (VObj [("text", VStr text)]).
Proof.
  intros Hn Hs Hext Htext.
  destruct (text =? "")%string eqn:Ht;
    (destruct Hext as [[Hd Hlib] | [Hp Hlib]]; name_given f;
     [ pose proof (endsWith_toLowerCase _ _ eq_refl Hd) as Hld
     | pose proof (endsWith_toLowerCase _ _ eq_refl Hp) as Hlp;
       pose proof (endsWith_pdf_not_docx _ Hp) as Hd;
       pose proof (endsWith_pdf_not_docx _ Hlp) as Hld ]);
    repeat split; by_handler; reflexivity.
Qed.

Lemma upload_no_text_witness :
  fst (Part000.serve (reads "  ") (post_file (named "scan.pdf" bytes))) =
  json 422 (VObj [("error", VStr "No text extracted.");
                  ("extractedLength", VNum 2)]) /\
  fst (Part001.serve (reads "  ") (post_file (named "scan.pdf" bytes))) =
  json 422
    (VObj [("error", VStr "No text content could be extracted from the file. The file may be empty or contain only images.");
           ("extractedLength", VNum 2)]) /\
  fst (ServerJs.serve (reads "  ") (post_file (named "scan.pdf" bytes))) =
  json 200 (VObj [("text", VStr "  ")]).
Proof.
  apply (upload_no_text (reads "  ") (named "scan.pdf" bytes) "  ").
  - reflexivity.
  - vm_compute. discriminate.
  - right. split; reflexivity.
  - reflexivity.
Defined.

(** server.js answers 200 to a [.pdf] whose text is two spaces.  part_000
    answers 413 to such a [.pdf] of more than 10 MiB. *)
Lemma blank_upload_not_always_422 :
  let P := reads "  " in
  let f := named "scan.pdf" bytes in
  let big := named "scan.pdf" oversized in
  endsWith "scan.pdf" ".pdf" = true /\
  pdf P (buffer f) = Resolves (VStr "  ") /\
  pdf P (buffer big) = Resolves (VStr "  ") /\
  trim "  " = "" /\
  status (fst (ServerJs.serve P (post_file f))) = 200 /\
  status (fst (Part000.serve P (post_file big))) = 413.
Proof.
  do 5 (split; [reflexivity|]).
  exact (Part000_oversized_status (reads "  ") "scan.pdf" ltac:(discriminate)).
Qed.

(** C4, server by server.

    A file of more than 10 MiB sent to [POST /upload] in the field [file],
    with a file name that is not empty: in the enhanced servers (part_000,
    part_001) multer refuses it with [LIMIT_FILE_SIZE] before the route
    handler runs, the error middleware answers 413 and no extraction
    library is called; the basic server (server.js) configures no limit, so
    there multer hands the file to the handler whatever its size. *)
Theorem upload_too_large (P : Platform) (f : File) :
  fieldname f = "file" ->
  originalname f <> "" ->
  10 * 1024 * 1024 < Z.of_nat (List.length (buffer f)) ->
  let req := incoming (post_file f) in
  let refused :=
    ((req, NextErr (MulterError "LIMIT_FILE_SIZE" "File too large")), []) in
  (single Part000.upload "file" req = refused /\
   Part000.serve P (post_file f) =
   (json 413 (VObj [("error", VStr "File too large. Max size is 10MB.")]), []))
  /\
  (single Part001.upload "file" req = refused /\
   Part001.serve P (post_file f) =
   (json 413 (VObj [("error", VStr "File too large. Maximum size is 10MB.");
                    ("maxSize", VStr "10MB")]), []))
  /\
  single ServerJs.upload "file" req =
  (({| request := post_file f; body := VUndefined; file := Some f |}, Next), []).
Proof.
  intros Hn Hname Hs req refused.
  pose proof (named_files_one f Hname) as Hfiles.
  assert (H0 : single Part000.upload "file" req = refused).
  { eapply single_too_large;
      [reflexivity | exact Hfiles | exact Hn | reflexivity | exact Hs]. }
  assert (H1 : single Part001.upload "file" req = refused).
  { eapply single_too_large;
      [reflexivity | exact Hfiles | exact Hn | reflexivity | exact Hs]. }
  split; [split; [exact H0 | now apply Part000_too_large]|].
  split; [split; [exact H1 | now apply Part001_too_large]|].
  apply single_accepts with (files := [f]);
    [reflexivity | exact Hfiles | exact Hn | exact I].
Qed.

Lemma upload_too_large_witness :
  Part000.serve (reads "Hello") (post_file (named "big.docx" oversized)) =
  (json 413 (VObj [("error", VStr "File too large. Max size is 10MB.")]), []).
Proof.
  apply (upload_too_large (reads "Hello") (named "big.docx" oversized)).
  - reflexivity.
  - discriminate.
  - cbn [buffer named]. rewrite oversized_length. lia.
Defined.

(** server.js extracts the text of a [.docx] of more than 10 MiB and
    answers 200.  A file part of more than 10 MiB without a file name is
    skipped by multer before its size counts: part_000 answers 400 for want
    of a file, not 413. *)
Lemma oversized_upload_not_always_413 :
  let f := named "big.docx" oversized in
  let nameless := named "" oversized in
  (10 * 1024 * 1024 < Z.of_nat (List.length (buffer f)) /\
   ServerJs.serve (reads "Hello") (post_file f) =
   (json 200 (VObj [("text", VStr "Hello")]), [CallMammoth oversized]))
  /\
  (10 * 1024 * 1024 < Z.of_nat (List.length (buffer nameless)) /\
   Part000.serve (reads "Hello") (post_file nameless) =
   (json 400 (VObj [("error", VStr "No file uploaded.");
                    ("timestamp", VStr "2023-11-14T22:13:20.000Z")]), [])).
Proof.
  intros f nameless.
  assert (Hbig : 10 * 1024 * 1024 < Z.of_nat (List.length oversized)).
  { rewrite oversized_length. lia. }
  split; (split; [exact Hbig|]).
  - assert (Hn : fieldname f = "file") by reflexivity.
    assert (Hname : originalname f <> "") by discriminate.
    assert (Hd : endsWith (originalname f) ".docx" = true) by reflexivity.
    by_handler. reflexivity.
  - exact (Part000_nameless (reads "Hello") nameless eq_refl).
Qed.

(** C5, server by server.

    For a file sent to [POST /upload] in the field [file],
    of at most 10 MiB, the enhanced servers (part_000, part_001) choose the
    extraction path by the suffix of the lower-cased file name: [.docx]
    (in any casing) calls mammoth, [.pdf] (in any casing) calls pdf-parse,
    and neither request is answered 400; anything else calls no library.
    The basic server (server.js) compares the suffix as it is written, so
    it calls a library for [.docx] and [.pdf] in lower case only. *)
Theorem upload_dispatch_by_suffix (P : Platform) (f : File) :
  fieldname f = "file" ->
  Z.of_nat (List.length (buffer f)) <= 10 * 1024 * 1024 ->
  let chosen (name : string) :=
    if endsWith name ".docx" then [CallMammoth (buffer f)]
    else if endsWith name ".pdf" then [CallPdf (buffer f)]
    else [] in
  let supported (name : string) :=
    endsWith name ".docx" || endsWith name ".pdf" in
  (snd (Part000.serve P (post_file f)) = chosen (toLowerCase (originalname f)) /\
   (supported (toLowerCase (originalname f)) = true ->
    status (fst (Part000.serve P (post_file f))) <> 400))
  /\
  (snd (Part001.serve P (post_file f)) = chosen (toLowerCase (originalname f)) /\
   (supported (toLowerCase (originalname f)) = true ->
    status (fst (Part001.serve P (post_file f))) <> 400))
  /\
  snd (ServerJs.serve P (post_file f)) = chosen (originalname f).
Proof.
  intros Hn Hs chosen supported. subst chosen supported. cbv beta.
  destruct (String.eqb (originalname f) "") eqn:Hname;
    [apply String.eqb_eq in Hname | apply String.eqb_neq in Hname].
  { rewrite (Part000_nameless P f Hname), (Part001_nameless P f Hname),
      (ServerJs_nameless P f Hname), Hname.
    repeat split; discriminate. }
  repeat split.
  - on_suffix P f (toLowerCase (originalname f));
      try destruct (trim s =? "")%string eqn:Htrim;
      by_handler; reflexivity.
  - on_suffix P f (toLowerCase (originalname f)); try discriminate;
      try destruct (trim s =? "")%string eqn:Htrim;
      intros _; by_handler; discriminate.
  - on_suffix P f (toLowerCase (originalname f));
      try destruct b; try destruct (z =? 0) eqn:Hz;
      try (destruct (s =? "")%string eqn:Hs0;
           [ | destruct (JS.length (trim s) =? 0) eqn:Htrim ]);
      by_handler; reflexivity.
  - on_suffix P f (toLowerCase (originalname f)); try discriminate;
      try destruct b; try destruct (z =? 0) eqn:Hz;
      try (destruct (s =? "")%string eqn:Hs0;
           [ | destruct (JS.length (trim s) =? 0) eqn:Htrim ]);
      intros _; by_handler; discriminate.
  - on_suffix P f (originalname f); by_handler; reflexivity.
Qed.

Lemma upload_dispatch_by_suffix_witness :
  let r := Part000.serve (reads "Hello") (post_file (named "Plan.DOCX" bytes)) in
  snd r = [CallMammoth bytes] /\ status (fst r) <> 400.
Proof.
  destruct (upload_dispatch_by_suffix (reads "Hello") (named "Plan.DOCX" bytes))
    as [[Hcalls Hstatus] _].
  - reflexivity.
  - vm_compute. discriminate.
  - split; [exact Hcalls | apply Hstatus; reflexivity].
Defined.

(** server.js rejects [Plan.DOCX] and [Plan.Pdf] as unsupported.  part_000
    answers 413 to a [Plan.DOCX] of more than 10 MiB without calling
    mammoth. *)
Lemma suffix_casing_not_always_ignored :
  endsWith (toLowerCase "Plan.DOCX") ".docx" = true /\
  endsWith (toLowerCase "Plan.Pdf") ".pdf" = true /\
  ServerJs.serve (reads "Hello") (post_file (named "Plan.DOCX" bytes)) =
  (json 400
     (VObj [("error", VStr "Unsupported file type. Please upload a .docx or .pdf file.")]),
   []) /\
  ServerJs.serve (reads "Hello") (post_file (named "Plan.Pdf" bytes)) =
  (json 400
     (VObj [("error", VStr "Unsupported file type. Please upload a .docx or .pdf file.")]),
   []) /\
  Part000.serve (reads "Hello") (post_file (named "Plan.DOCX" oversized)) =
  (json 413 (VObj [("error", VStr "File too large. Max size is 10MB.")]), []).
Proof.
  do 4 (split; [reflexivity|]).
  exact (proj2 (Part000_oversized (reads "Hello") "Plan.DOCX" ltac:(discriminate))).
Qed.

End UploadResults.

(** ** The middleware mounted before the routes *)

Section Mounted.
Import JS Express Requests.

Lemma cors_passes req :
  passes cors req -> cors req = ((req, Next), []).
Proof.
  unfold passes, cors. destruct (method (request req)); simpl;
    intros H; try reflexivity; discriminate.
Qed.

(** [express.json()] changes [req.body] only. *)
Lemma express_json_passes P req :
  passes (express_json P) req ->
  exists b,
    express_json P req =
    (({| request := request req; body := b; file := file req |}, Next), []).
Proof.
  unfold passes, express_json.
  destruct (payload (request req)) as [|n [[]|]|];
    try destruct (json_limit <? n); simpl; intros H;
    try discriminate; eexists; reflexivity.
Qed.

(** It passes a JSON body on exactly when the body is within the limit and
    parses to an object or an array. *)
Lemma express_json_passes_json P r n parsed :
  payload r = JsonPayload n parsed ->
  passes (express_json P) (incoming r) <->
  n <= json_limit /\
  ((exists props, parsed = Some (VObj props)) \/
   (exists elems, parsed = Some (VArr elems))).
Proof.
  intros Hp. unfold passes, express_json. cbn [incoming request]. rewrite Hp.
  destruct (json_limit <? n) eqn:Hn;
    [apply Z.ltb_lt in Hn | apply Z.ltb_ge in Hn].
  - split; [discriminate | lia].
  - destruct parsed as [[| |b|z|s|l|ps]|]; cbn; split;
      try discriminate;
      try (intros [_ [[x [= ]] | [x [= ]]]]);
      try (intros _; split; [exact Hn|]; eauto);
      reflexivity.
Qed.

(** An object it passes on becomes [req.body]. *)
Lemma express_json_object P n props p :
  passes (express_json P) (incoming (post_json p n (VObj props))) ->
  express_json P (incoming (post_json p n (VObj props))) =
  (({| request := post_json p n (VObj props); body := VObj props;
       file := None |}, Next), []).
Proof.
  unfold passes, express_json. cbn [incoming request payload post_json file].
  destruct (json_limit <? n); [discriminate | reflexivity].
Qed.

End Mounted.

(** ** /analyze *)

Section Analyze.
Import JS Express Requests Samples Notions.

Lemma append_assoc (a b c : string) : (a ++ b) ++ c = a ++ (b ++ c).
Proof. induction a as [|x a IH]; simpl; [reflexivity | now rewrite IH]. Qed.

(** A JSON object posted to [/analyze] that [express.json()] passes on
    reaches the handler of part_000 as [req.body]. *)
Lemma Part000_analyze_served P n props r t :
  passes (express_json P) (incoming (post_json "/analyze" n (VObj props))) ->
  settled (Part000.post_analyze P
             {| request := post_json "/analyze" n (VObj props);
                body := VObj props; file := None |}) = Some (r, t) ->
  Part000.serve P (post_json "/analyze" n (VObj props)) = (r, t).
Proof.
  intros Hj Hh. unfold Part000.serve, Part000.app.
  rewrite dispatch_Use,
    (cors_passes (incoming (post_json "/analyze" n (VObj props))) eq_refl),
    resume_Next.
  rewrite dispatch_Use, (express_json_object _ _ _ _ Hj), resume_Next.
  walk.
  now rewrite (run_chain_handler _ _ _ _ Hh).
Qed.

(** [`${s?.length || 0}`] for a string [s] is its length in decimal. *)
Lemma count_of_string (s : string) :
  ToString (logical_or (opt_length (VStr s)) (VNum 0)) =
  string_of_Z (JS.length s).
Proof.
  unfold logical_or. cbn [opt_length get String.eqb Ascii.eqb Bool.eqb truthy].
  destruct (JS.length s =? 0) eqn:E; cbn [negb]; [|reflexivity].
  apply Z.eqb_eq in E. now rewrite E.
Qed.

Lemma summary_includes (a l : string) :
  includes (summary_text a l) ("(" ++ a ++ " / " ++ l ++ " characters)").
Proof.
  exists "Accommodations and lesson plan received ", ".".
  unfold summary_text. rewrite !append_assoc. reflexivity.
Qed.

(** The answer of part_000 to two string fields. *)
Lemma analyze_strings (P : Platform) (bytes : Z)
    (props : list (string * value)) (a l : string) :
  passes (express_json P) (incoming (post_json "/analyze" bytes (VObj props))) ->
  lookup "accommodations" props = Some (VStr a) ->
  lookup "lessonPlan" props = Some (VStr l) ->
  let r := fst (Part000.serve P (post_json "/analyze" bytes (VObj props))) in
  status r = 200 /\
  (exists summary,
      field r "summary" = VStr summary /\
      includes summary
        ("(" ++ string_of_Z (JS.length a) ++ " / "
         ++ string_of_Z (JS.length l) ++ " characters)")) /\
  field r "received" = VObj [("accommodations", VStr a);
                             ("lessonPlan", VStr l)].
Proof.
  intros Hj Ha Hl r. subst r.
  erewrite Part000_analyze_served; [ | exact Hj | ].
  2:{ unfold Part000.post_analyze, member.
      cbn [body get bind ret try_catch]. rewrite Ha, Hl.
      cbn [bind ret try_catch settled app]. reflexivity. }
  rewrite !count_of_string. cbn [fst].
  split; [reflexivity|]. split; [|reflexivity].
  eexists. split; [reflexivity|]. apply summary_includes.
Qed.

(** C6.  An [/analyze] request that reaches the handler (its JSON body is
    passed on by [express.json()]) and has the strings [a] and [l] under
    [accommodations] and [lessonPlan] is answered 200; the summary contains
    ["(<length of a> / <length of l> characters)"] and [received] is
    [{accommodations: a, lessonPlan: l}].  For ["abc"] and [""] the summary
    contains ["(3 / 0 characters)"]. *)
Theorem analyze_summary :
  (forall (P : Platform) (bytes : Z) (props : list (string * value))
          (a l : string),
      passes (express_json P)
        (incoming (post_json "/analyze" bytes (VObj props))) ->
      lookup "accommodations" props = Some (VStr a) ->
      lookup "lessonPlan" props = Some (VStr l) ->
      let r := fst (Part000.serve P (post_json "/analyze" bytes (VObj props))) in
      status r = 200 /\
      (exists summary,
          field r "summary" = VStr summary /\
          includes summary
            ("(" ++ string_of_Z (JS.length a) ++ " / "
             ++ string_of_Z (JS.length l) ++ " characters)")) /\
      field r "received" = VObj [("accommodations", VStr a);
                                 ("lessonPlan", VStr l)])
  /\
  (forall (P : Platform) (bytes : Z) (props : list (string * value)),
      passes (express_json P)
        (incoming (post_json "/analyze" bytes (VObj props))) ->
      lookup "accommodations" props = Some (VStr "abc") ->
      lookup "lessonPlan" props = Some (VStr "") ->
      let r := fst (Part000.serve P (post_json "/analyze" bytes (VObj props))) in
      status r = 200 /\
      (exists summary,
          field r "summary" = VStr summary /\
          includes summary "(3 / 0 characters)") /\
      field r "received" = VObj [("accommodations", VStr "abc");
                                 ("lessonPlan", VStr "")]).
Proof.
  split; [exact analyze_strings|].
  intros P bytes props Hj Ha Hl.
  exact (analyze_strings P bytes props "abc" "" Hj Ha Hl).
Qed.

Lemma analyze_summary_witness :
  let r := fst (Part000.serve (reads "")
                  (post_json "/analyze" 40
                     (VObj [("accommodations", VStr "abc");
                            ("lessonPlan", VStr "")]))) in
  status r = 200 /\
  (exists summary,
      field r "summary" = VStr summary /\
      includes summary "(3 / 0 characters)") /\
  field r "received" = VObj [("accommodations", VStr "abc");
                             ("lessonPlan", VStr "")].
Proof.
  apply (proj2 analyze_summary (reads "") 40); reflexivity.
Defined.

(** C10.  An [/analyze] request whose JSON body was parsed (it is passed
    on by [express.json()]) and is an object is answered 200 whatever
    fields it has; a field that is missing counts as [0] in the summary and
    has no key in [received]. *)
Theorem analyze_missing_fields (P : Platform) (bytes : Z)
    (props : list (string * value)) :
  passes (express_json P) (incoming (post_json "/analyze" bytes (VObj props))) ->
  let r := fst (Part000.serve P (post_json "/analyze" bytes (VObj props))) in
  status r = 200 /\
  exists (accommodations lessonPlan : string) (received : list (string * value)),
    field r "summary" =
    VStr ("Accommodations and lesson plan received (" ++ accommodations
          ++ " / " ++ lessonPlan ++ " characters).") /\
    field r "received" = VObj received /\
    (lookup "accommodations" props = None ->
     accommodations = "0" /\ lookup "accommodations" received = None) /\
    (lookup "lessonPlan" props = None ->
     lessonPlan = "0" /\ lookup "lessonPlan" received = None).
Proof.
  intros Hj r. subst r.
  erewrite Part000_analyze_served; [ | exact Hj | ].
  2:{ unfold Part000.post_analyze, member.
      cbn [body get bind ret try_catch settled app]. reflexivity. }
  cbn [fst]. split; [reflexivity|].
  eexists _, _, _. split; [reflexivity|]. split; [reflexivity|].
  split; intros H; rewrite H; (split; [reflexivity|]).
  - destruct (lookup "lessonPlan" props) as [[]|]; reflexivity.
  - destruct (lookup "accommodations" props) as [[]|]; reflexivity.
Qed.

Lemma analyze_missing_fields_witness :
  let r := fst (Part000.serve (reads "")
                  (post_json "/analyze" 22 (VObj [("lessonPlan", VStr "hello")]))) in
  status r = 200 /\
  exists (lessonPlan : string) (received : list (string * value)),
    field r "summary" =
    VStr ("Accommodations and lesson plan received (0 / " ++ lessonPlan
          ++ " characters).") /\
    field r "received" = VObj received /\
    lookup "accommodations" received = None.
Proof.
  destruct (analyze_missing_fields (reads "") 22 [("lessonPlan", VStr "hello")]
              eq_refl)
    as [Hstatus [a [l [received [Hsummary [Hreceived [Hmissing _]]]]]]].
  split; [exact Hstatus|].
  destruct (Hmissing eq_refl) as [-> Hkey].
  exists l, received. repeat split; assumption.
Defined.

Lemma analyze_missing_fields_example :
  Part000.serve (reads "")
    (post_json "/analyze" 22 (VObj [("lessonPlan", VStr "hello")])) =
  ({| status := 200;
      content :=
        Json (VObj [("message", VStr "Analysis received.");
                    ("summary",
                     VStr "Accommodations and lesson plan received (0 / 5 characters).");
                    ("received", VObj [("lessonPlan", VStr "hello")])]) |},
   []) /\
  Part000.serve (reads "") (post_json "/analyze" 2 (VObj [])) =
  ({| status := 200;
      content :=
        Json (VObj [("message", VStr "Analysis received.");
                    ("summary",
                     VStr "Accommodations and lesson plan received (0 / 0 characters).");
                    ("received", VObj [])]) |},
   []).
Proof. split; reflexivity. Qed.

End Analyze.

(** ** Unmatched routes *)

Section Routing.
Import JS Express Requests Samples.

(** C7, server by server.

    A request that [cors()] passes on (any method but
    OPTIONS), that [express.json()] passes on where it is mounted
    (part_000), and whose method and path match no registered route, is
    answered 404 by the enhanced servers, with [error] and the list
    [availableEndpoints], which is a constant of each server (four
    endpoints in part_000, three in part_001).  The basic server
    (server.js) registers no 404 handler: there the request is answered
    404 by Express itself, without a list. *)
Theorem unmatched_route_404 :
  (forall (P : Platform) (r : Request),
      passes cors (incoming r) ->
      passes (express_json P) (incoming r) ->
      routed (Part000.app P) (incoming r) = false ->
      Part000.serve P r =
      (json 404 (VObj [("error", VStr "Endpoint not found");
                       ("availableEndpoints",
                        VArr [VStr "GET /"; VStr "GET /health";
                              VStr "POST /upload"; VStr "POST /analyze"])]),
       []))
  /\
  (forall (P : Platform) (r : Request),
      passes cors (incoming r) ->
      routed (Part001.app P) (incoming r) = false ->
      Part001.serve P r =
      (json 404 (VObj [("error", VStr "Endpoint not found");
                       ("availableEndpoints",
                        VArr [VStr "GET /"; VStr "GET /health";
                              VStr "POST /upload"])]),
       []))
  /\
  (forall (P : Platform) (r : Request),
      passes cors (incoming r) ->
      routed (ServerJs.app P) (incoming r) = false ->
      ServerJs.serve P r = ({| status := 404; content := Html |}, [])).
Proof.
  repeat split.
  - intros P r Hc Hj Hr.
    cbn [routed Part000.app] in Hr.
    repeat (apply orb_false_iff in Hr as [? Hr]).
    unfold Part000.serve, Part000.app.
    rewrite dispatch_Use, (cors_passes _ Hc), resume_Next.
    destruct (express_json_passes _ _ Hj) as [b Hb].
    rewrite dispatch_Use, Hb, resume_Next.
    repeat (rewrite dispatch_Route;
            match goal with
            | E : route_matches ?m ?p _ = false |- context [route_matches ?m ?p ?q] =>
                change (route_matches m p q) with (route_matches m p (incoming r));
                rewrite E
            end).
    now autorewrite with dispatch.
  - intros P r Hc Hr.
    cbn [routed Part001.app] in Hr.
    repeat (apply orb_false_iff in Hr as [? Hr]).
    unfold Part001.serve, Part001.app.
    rewrite dispatch_Use, (cors_passes _ Hc), resume_Next.
    repeat (rewrite dispatch_Route;
            match goal with
            | E : route_matches ?m ?p _ = false |- _ => rewrite E
            end).
    now autorewrite with dispatch.
  - intros P r Hc Hr.
    cbn [routed ServerJs.app] in Hr.
    repeat (apply orb_false_iff in Hr as [? Hr]).
    unfold ServerJs.serve, ServerJs.app.
    rewrite dispatch_Use, (cors_passes _ Hc), resume_Next.
    repeat (rewrite dispatch_Route;
            match goal with
            | E : route_matches ?m ?p _ = false |- _ => rewrite E
            end).
    now autorewrite with dispatch.
Qed.

Lemma unmatched_route_404_witness :
  Part000.serve (reads "") get_nonexistent =
  (json 404 (VObj [("error", VStr "Endpoint not found");
                   ("availableEndpoints",
                    VArr [VStr "GET /"; VStr "GET /health";
                          VStr "POST /upload"; VStr "POST /analyze"])]),
   []).
Proof.
  apply (proj1 unmatched_route_404 (reads "") get_nonexistent); reflexivity.
Defined.

(** Two requests that match no route of part_000 and are not answered 404:
    a body that is not JSON is refused by [express.json()] and answered
    500 by the error middleware; a preflight is answered 204 by [cors()]. *)
Lemma unmatched_route_not_always_404 :
  let bad_json :=
    {| method := POST; path := "/nonexistent";
       payload := JsonPayload 9 None |} in
  let preflight :=
    {| method := OPTIONS; path := "/nonexistent"; payload := NoPayload |} in
  routed (Part000.app (reads "")) (incoming bad_json) = false /\
  Part000.serve (reads "") bad_json =
  (json 500 (VObj [("error", VStr "Internal server error");
                   ("timestamp", VStr "2023-11-14T22:13:20.000Z")]), []) /\
  routed (Part000.app (reads "")) (incoming preflight) = false /\
  Part000.serve (reads "") preflight =
  ({| status := 204; content := Empty |}, []).
Proof. repeat split. Qed.

End Routing.

(** ** The listen port *)

Section Port.
Import JS Express Requests Samples.

(** C8, server by server.

    The enhanced servers (part_000, part_001) listen on
    [process.env.PORT] when it is set to a non-empty string and on 3001
    when it is unset or empty; the basic server (server.js) listens on
    3001 whatever the environment. *)
Theorem listen_port (P : Platform) :
  let configured :=
    match process_env P "PORT" with
    | Some s => if (s =? "")%string then VNum 3001 else VStr s
    | None => VNum 3001
    end in
  Part000.port P = configured /\
  Part001.port P = configured /\
  ServerJs.port = VNum 3001.
Proof.
  unfold Part000.port, Part001.port, ServerJs.port, env, logical_or.
  destruct (process_env P "PORT") as [s|]; cbn [truthy];
    [destruct (s =? "")%string|]; repeat split.
Qed.

(** With [PORT] set to the empty string part_000 listens on 3001; with
    [PORT=8080] server.js listens on 3001. *)
Lemma port_set_but_not_used :
  process_env (with_env (reads "") (PORT_is "")) "PORT" = Some "" /\
  Part000.port (with_env (reads "") (PORT_is "")) = VNum 3001 /\
  process_env (with_env (reads "") (PORT_is "8080")) "PORT" = Some "8080" /\
  Part000.port (with_env (reads "") (PORT_is "8080")) = VStr "8080" /\
  ServerJs.port = VNum 3001.
Proof. repeat split. Qed.

End Port.

(** ** Error responses *)

Section Errors.
Import JS Express Requests Samples Notions.

Lemma run_chain_sends Q chain :
  Forall (sends Q) chain -> sends Q (run_chain chain).
Proof.
  induction 1 as [|mw chain Hmw _ IH]; intros req req' r t; cbn [run_chain].
  - intros [= ]. 
  - destruct (mw req) as [[req1 [r1| |e1]] t1] eqn:E.
    + intros [= <- <- <-]. eapply Hmw, E.
    + destruct (run_chain chain req1) as [[req2 s2] t2] eqn:E2.
      intros [= <- -> <-]. eapply IH, E2.
    + intros [= ].
Qed.

(** What every layer sends, and what the final handler sends, is all the
    application sends. *)
Lemma dispatch_sends Q stack :
  (forall err, Q (finalhandler err)) ->
  Forall (layer_sends Q) stack ->
  forall err req, Q (fst (dispatch stack err req)).
Proof.
  intros Hfinal Hstack. induction Hstack as [|l stack Hl _ IH]; intros err req.
  - apply Hfinal.
  - assert (Hresume : forall s, (forall req' r t, s = ((req', Responded r), t) -> Q r) ->
                                Q (fst (resume stack s))).
    { intros [[req' [r| |e]] t] Hs; cbn [resume].
      - eapply Hs; reflexivity.
      - specialize (IH None req'). now destruct (dispatch stack None req').
      - specialize (IH (Some e) req'). now destruct (dispatch stack (Some e) req'). }
    destruct l as [mw | m route chain | mw], err as [e|];
      autorewrite with dispatch; try apply IH.
    + apply Hresume. intros req' r t E. eapply Hl, E.
    + destruct (route_matches m route req); [|apply IH].
      apply Hresume. intros req' r t E.
      eapply (run_chain_sends Q chain Hl), E.
    + apply Hresume. intros req' r t E. eapply (Hl e), E.
Qed.


Lemma handler_sends (Q : Response -> Prop) h :
  (forall req r t, settled (h req) = Some (r, t) -> Q r) ->
  sends Q (handler h).
Proof.
  intros Hh req req' r t. unfold handler.
  specialize (Hh req). destruct (h req) as [[a|a|e] t0]; intros [= <- <- <-];
    eapply Hh; reflexivity.
Qed.

Lemma reported_json code message rest :
  error_is_reported (json code (VObj (("error", VStr message) :: rest))).
Proof. intros _ v _. exists message. reflexivity. Qed.

Lemma reported_200 obj : error_is_reported (json 200 obj).
Proof. intros H. now destruct H. Qed.


Lemma keeps_ret {A} Q (N : A -> Prop) a : N a -> keeps Q N (ret a).
Proof. intros H. exact H. Qed.

Lemma keeps_respond {A} Q (N : A -> Prop) code obj :
  Q (json code obj) -> keeps Q N (respond code obj).
Proof. intros H. exact H. Qed.

Lemma keeps_throw {A} Q (N : A -> Prop) e : keeps Q N (throw e).
Proof. exact I. Qed.

Lemma keeps_bind {A B} Q (N : B -> Prop) (m : Run A) (k : A -> Run B) :
  keeps Q any m -> (forall a, keeps Q N (k a)) -> keeps Q N (bind m k).
Proof.
  unfold keeps, bind. destruct m as [[a|r|e] t]; cbn [fst]; intros Hm Hk.
  - specialize (Hk a). now destruct (k a).
  - exact Hm.
  - exact I.
Qed.

Lemma keeps_try_catch {A} Q (N : A -> Prop) (block : Run A) handler :
  keeps Q N block -> (forall e, keeps Q N (handler e)) ->
  keeps Q N (try_catch block handler).
Proof.
  unfold keeps, try_catch. destruct block as [[a|r|e] t]; cbn [fst];
    intros Hb Hh; try exact Hb.
  specialize (Hh e). now destruct (handler e).
Qed.

Lemma keeps_await Q call o : keeps Q any (await call o).
Proof. destruct o; exact I. Qed.

Lemma keeps_member Q P expr v k : keeps Q any (member P expr v k).
Proof. destruct v; exact I. Qed.

Lemma keeps_call_trim Q P expr v : keeps Q any (call_trim P expr v).
Proof. destruct v; exact I. Qed.

Lemma keeps_opt_trim Q P expr v : keeps Q any (opt_trim P expr v).
Proof. destruct v; exact I. Qed.

Lemma keeps_settled Q (m : Run Response) r t :
  keeps Q Q m -> settled m = Some (r, t) -> Q r.
Proof.
  unfold keeps, settled. destruct m as [[a|a|e] t0]; cbn [fst];
    intros H [= <- <-]; exact H.
Qed.

Ltac keep :=
  repeat first
    [ apply keeps_try_catch
    | apply keeps_bind
    | apply keeps_await
    | apply keeps_member
    | apply keeps_call_trim
    | apply keeps_opt_trim
    | apply keeps_throw
    | apply keeps_respond; apply reported_json
    | apply keeps_ret; first [exact I | apply reported_json | apply reported_200]
    | match goal with
      | |- keeps _ _ (if ?b then _ else _) => destruct b
      | |- keeps _ _ (match ?x with _ => _ end) => destruct x
      end
    | intro ].

Lemma Part000_post_upload_reports P req :
  keeps error_is_reported error_is_reported (Part000.post_upload P req).
Proof. unfold Part000.post_upload. keep. Qed.

Lemma Part000_post_analyze_reports P req :
  keeps error_is_reported error_is_reported (Part000.post_analyze P req).
Proof. unfold Part000.post_analyze. keep. Qed.

Lemma Part001_post_upload_reports P req :
  keeps error_is_reported error_is_reported (Part001.post_upload P req).
Proof. unfold Part001.post_upload, Part001.trims_to_nothing. keep. Qed.

Lemma ServerJs_post_upload_reports P req :
  keeps error_is_reported error_is_reported (ServerJs.post_upload P req).
Proof. unfold ServerJs.post_upload. keep. Qed.

Lemma cors_reports : sends error_is_reported cors.
Proof.
  intros req req' r t. unfold cors.
  destruct (method (request req)); intros [= <- <- <-];
    intros _ v [= ].
Qed.

Lemma express_json_never_responds Q P : sends Q (express_json P).
Proof.
  intros req req' r t. unfold express_json.
  destruct (payload (request req)) as [|n [[]|]|];
    try destruct (json_limit <? n); intros [= ].
Qed.

Lemma single_never_responds Q M name : sends Q (single M name).
Proof.
  intros req req' r t. unfold single.
  destruct (payload (request req)) as [| |files];
    try destruct (named_files files) as [|f [|g more]];
    repeat match goal with
           | |- context [if ?b then _ else _] => destruct b
           end; intros [= ].
Qed.

Lemma handler_reports h :
  (forall req, keeps error_is_reported error_is_reported (h req)) ->
  sends error_is_reported (handler h).
Proof.
  intros Hh. apply handler_sends. intros req r t.
  apply keeps_settled, Hh.
Qed.

Lemma finalhandler_reports err : error_is_reported (finalhandler err).
Proof. destruct err as [[]|]; intros _ v [= ]. Qed.

(** C9.  In the three servers, every response whose status is not 200 and
    whose body is JSON has a string under [error]: the 400, 413, 422 and
    500 answers of the handlers, the answers of the error middleware and
    the 404 handler. *)
Theorem error_field (P : Platform) (r : Request) :
  error_is_reported (fst (Part000.serve P r)) /\
  error_is_reported (fst (Part001.serve P r)) /\
  error_is_reported (fst (ServerJs.serve P r)).
Proof.
  unfold Part000.serve, Part001.serve, ServerJs.serve,
    Part000.app, Part001.app, ServerJs.app.
  repeat split; apply dispatch_sends; try apply finalhandler_reports;
    repeat (apply Forall_cons || apply Forall_nil); cbn [layer_sends];
    repeat (apply Forall_cons || apply Forall_nil);
    try apply cors_reports;
    try apply express_json_never_responds;
    try apply single_never_responds;
    try (intros e); apply handler_reports; intros req.
  - unfold Part000.get_health. keep.
  - unfold Part000.get_root. keep.
  - apply Part000_post_upload_reports.
  - apply Part000_post_analyze_reports.
  - unfold Part000.on_error. keep.
  - unfold Part000.not_found. keep.
  - unfold Part001.get_health. keep.
  - unfold Part001.get_root. keep.
  - apply Part001_post_upload_reports.
  - unfold Part001.on_error. keep.
  - unfold Part001.not_found. keep.
  - apply ServerJs_post_upload_reports.
Qed.

Lemma error_field_witness :
  exists message,
    field (fst (Part000.serve (reads "Hello") get_nonexistent)) "error" =
    VStr message.
Proof.
  eapply (proj1 (error_field (reads "Hello") get_nonexistent)).
  - discriminate.
  - reflexivity.
Defined.

(** The property at work: the error paths of part_000, and one of each
    other server. *)
Lemma error_field_examples :
  let error_of (answer : Response * list LibCall) :=
    (status (fst answer), field (fst answer) "error") in
  let no_file :=
    {| method := POST; path := "/upload"; payload := NoPayload |} in
  let bad_json :=
    {| method := POST; path := "/analyze"; payload := JsonPayload 9 None |} in
  error_of (Part000.serve (reads "Hello") no_file) =
    (400, VStr "No file uploaded.") /\
  error_of (Part000.serve (reads "Hello") (post_file (named "notes.txt" bytes))) =
    (400, VStr "Unsupported file type.") /\
  error_of (Part000.serve (reads "Hello") get_nonexistent) =
    (404, VStr "Endpoint not found") /\
  error_of (Part000.serve (reads "  ") (post_file (named "scan.pdf" bytes))) =
    (422, VStr "No text extracted.") /\
  error_of (Part000.serve (rejects "bad zip") (post_file (named "a.docx" bytes))) =
    (500, VStr "Failed to process DOCX file.") /\
  error_of (Part000.serve (reads "Hello") bad_json) =
    (500, VStr "Internal server error") /\
  error_of (Part001.serve (rejects "bad xref") (post_file (named "a.pdf" bytes))) =
    (500, VStr "Failed to process PDF file. The file may be corrupted, password-protected, or contain only images.") /\
  error_of (ServerJs.serve (rejects "bad zip") (post_file (named "a.docx" bytes))) =
    (500, VStr "Failed to process file.").
Proof. repeat split. Qed.

End Errors.

(** * Further properties of the servers *)

(** ** Uploads: no file, wrong field, failing libraries *)

Section UploadEdges.
Import JS Express Requests Samples Observations.

(** X1.  A POST to [/upload] that carries no file part (no body, or a
    multipart body without file) is answered 400 "No file uploaded." by the
    three servers, the enhanced ones adding a timestamp; no library is
    called. *)
Theorem upload_without_file (P : Platform) (pl : Payload) :
  pl = NoPayload \/ pl = MultipartPayload [] ->
  let r := request_of POST "/upload" pl in
  Part000.serve P r =
  (json 400 (VObj [("error", VStr "No file uploaded.");
                   ("timestamp", VStr (toISOString P))]), []) /\
  Part001.serve P r =
  (json 400 (VObj [("error", VStr "No file uploaded.");
                   ("timestamp", VStr (toISOString P))]), []) /\
  ServerJs.serve P r = (json 400 (VObj [("error", VStr "No file uploaded.")]), []).
Proof.
  intros [-> | ->]; repeat split.
Qed.

Lemma upload_without_file_witness :
  Part000.serve (reads "Hello") (request_of POST "/upload" NoPayload) =
  (json 400 (VObj [("error", VStr "No file uploaded.");
                   ("timestamp", VStr "2023-11-14T22:13:20.000Z")]), []).
Proof.
  apply (upload_without_file (reads "Hello") NoPayload). left. reflexivity.
Defined.

(** A named file under another field name is refused by multer; the error
    middleware of the enhanced servers answers. *)
Lemma single_unexpected_field (M : Multer) (req : Req) files (f : File) more :
  payload (request req) = MultipartPayload files ->
  named_files files = f :: more ->
  fieldname f <> "file" ->
  single M "file" req =
  ((req, NextErr (MulterError "LIMIT_UNEXPECTED_FILE" "Unexpected field")), []).
Proof.
  intros Hp Hfiles Hn. unfold single. rewrite Hp, Hfiles.
  apply String.eqb_neq in Hn. rewrite Hn. reflexivity.
Qed.

Lemma Part000_unexpected_field P f :
  originalname f <> "" ->
  fieldname f <> "file" ->
  Part000.serve P (post_file f) =
  (json 500 (VObj [("error", VStr "Internal server error");
                   ("timestamp", VStr (toISOString P))]), []).
Proof.
  intros Hname Hn. unfold Part000.serve, Part000.app. walk. cbn [run_chain].
  erewrite (single_unexpected_field Part000.upload _ [f] f []);
    [ | reflexivity | now apply named_files_one | exact Hn].
  rewrite resume_NextErr. now autorewrite with dispatch.
Qed.

Lemma Part001_unexpected_field P f :
  originalname f <> "" ->
  fieldname f <> "file" ->
  Part001.serve P (post_file f) =
  (json 500 (VObj [("error", VStr "Internal server error");
                   ("timestamp", VStr (toISOString P))]), []).
Proof.
  intros Hname Hn. unfold Part001.serve, Part001.app. walk. cbn [run_chain].
  erewrite (single_unexpected_field Part001.upload _ [f] f []);
    [ | reflexivity | now apply named_files_one | exact Hn].
  rewrite resume_NextErr. now autorewrite with dispatch.
Qed.

Lemma ServerJs_unexpected_field P f :
  originalname f <> "" ->
  fieldname f <> "file" ->
  ServerJs.serve P (post_file f) = ({| status := 500; content := Html |}, []).
Proof.
  intros Hname Hn. unfold ServerJs.serve, ServerJs.app. walk. cbn [run_chain].
  erewrite (single_unexpected_field ServerJs.upload _ [f] f []);
    [ | reflexivity | now apply named_files_one | exact Hn].
  rewrite resume_NextErr. now autorewrite with dispatch.
Qed.

(** X2.  A file with a file name, posted to [/upload] under a field name
    other than [file], never reaches the handler: the enhanced servers
    answer 500 "Internal server error" through their error middleware,
    server.js leaves the error to Express (500, not JSON); no library is
    called. *)
Theorem upload_under_wrong_field (P : Platform) (f : File) :
  originalname f <> "" ->
  fieldname f <> "file" ->
  Part000.serve P (post_file f) =
  (json 500 (VObj [("error", VStr "Internal server error");
                   ("timestamp", VStr (toISOString P))]), []) /\
  Part001.serve P (post_file f) =
  (json 500 (VObj [("error", VStr "Internal server error");
                   ("timestamp", VStr (toISOString P))]), []) /\
  ServerJs.serve P (post_file f) = ({| status := 500; content := Html |}, []).
Proof.
  intros Hname Hn. repeat split.
  - now apply Part000_unexpected_field.
  - now apply Part001_unexpected_field.
  - now apply ServerJs_unexpected_field.
Qed.

Lemma upload_under_wrong_field_witness :
  Part000.serve (reads "Hello")
    (post_file {| fieldname := "document"; originalname := "Plan.docx";
                  buffer := bytes |}) =
  (json 500 (VObj [("error", VStr "Internal server error");
                   ("timestamp", VStr "2023-11-14T22:13:20.000Z")]), []).
Proof.
  apply (upload_under_wrong_field (reads "Hello")
           {| fieldname := "document"; originalname := "Plan.docx";
              buffer := bytes |}); discriminate.
Defined.

(** Without a file name the part is skipped, whatever its field: the
    handler runs and finds no file. *)
Lemma nameless_upload_examples :
  let stray := {| fieldname := "document"; originalname := ""; buffer := bytes |} in
  Part000.serve (reads "Hello") (post_file stray) =
  (json 400 (VObj [("error", VStr "No file uploaded.");
                   ("timestamp", VStr "2023-11-14T22:13:20.000Z")]), []) /\
  ServerJs.serve (reads "Hello") (post_file stray) =
  (json 400 (VObj [("error", VStr "No file uploaded.")]), []) /\
  snd (Part000.serve (reads "Hello")
         (request_of POST "/upload"
            (MultipartPayload [stray; named "Plan.docx" bytes]))) =
  [CallMammoth bytes].
Proof. repeat split. Qed.

(** X3.  When the library chosen for a [.docx] or [.pdf] file fails, the
    enhanced servers answer 500 with a message naming the format and the
    library's own message under [details]; server.js answers 500 "Failed to
    process file." without details.  The library was called once. *)
Theorem extraction_failure (P : Platform) (f : File) (e : Error) :
  fieldname f = "file" ->
  Z.of_nat (List.length (buffer f)) <= 10 * 1024 * 1024 ->
  (endsWith (originalname f) ".docx" = true /\
   mammoth_extractRawText P (buffer f) = Rejects e) \/
  (endsWith (originalname f) ".pdf" = true /\
   pdf P (buffer f) = Rejects e) ->
  let docx := endsWith (originalname f) ".docx" in
  let call := if docx then CallMammoth (buffer f) else CallPdf (buffer f) in
  Part000.serve P (post_file f) =
  (json 500
     (VObj [("error", VStr (if docx then "Failed to process DOCX file."
                            else "Failed to process PDF file."));
            ("details", VStr (message e))]),
   [call]) /\
  Part001.serve P (post_file f) =
  (json 500
     (VObj [("error",
             VStr (if docx
                   then "Failed to process DOCX file. The file may be corrupted or in an unsupported format."
                   else "Failed to process PDF file. The file may be corrupted, password-protected, or contain only images."));
            ("details", VStr (message e))]),
   [call]) /\
  ServerJs.serve P (post_file f) =
  (json 500 (VObj [("error", VStr "Failed to process file.")]), [call]).
Proof.
  intros Hn Hs Hext docx call. subst call docx.
  destruct Hext as [[Hd Hlib] | [Hp Hlib]]; name_given f.
  - pose proof (endsWith_toLowerCase _ _ eq_refl Hd) as Hld.
    rewrite Hd. repeat split; by_handler; reflexivity.
  - pose proof (endsWith_toLowerCase _ _ eq_refl Hp) as Hlp.
    pose proof (endsWith_pdf_not_docx _ Hp) as Hd.
    pose proof (endsWith_pdf_not_docx _ Hlp) as Hld.
    rewrite Hd. repeat split; by_handler; reflexivity.
Qed.

Lemma extraction_failure_witness :
  Part000.serve (rejects "bad zip") (post_file (named "a.docx" bytes)) =
  (json 500 (VObj [("error", VStr "Failed to process DOCX file.");
                   ("details", VStr "bad zip")]),
   [CallMammoth bytes]).
Proof.
  apply (extraction_failure (rejects "bad zip") (named "a.docx" bytes)
           (PlainError "bad zip")).
  - reflexivity.
  - vm_compute. discriminate.
  - left. split; reflexivity.
Defined.

(** X4.  When the library resolves without a text ([undefined] or [null]),
    the enhanced servers do not answer 422: reading [extractedText.length]
    throws, and the outer [catch] answers 500 with the engine's message
    under [details].  server.js answers 200 with that value as [text]. *)
Theorem extraction_without_text (P : Platform) (f : File) (v : value) :
  fieldname f = "file" ->
  Z.of_nat (List.length (buffer f)) <= 10 * 1024 * 1024 ->
  nullish v = true ->
  (endsWith (originalname f) ".docx" = true /\
   mammoth_extractRawText P (buffer f) = Resolves v) \/
  (endsWith (originalname f) ".pdf" = true /\
   pdf P (buffer f) = Resolves v) ->
  fst (Part000.serve P (post_file f)) =
  json 500 (VObj [("error", VStr "Unexpected error during file processing.");
                  ("details", VStr (TypeError_message P "extractedText.length"))])
  /\
  fst (Part001.serve P (post_file f)) =
  json 500
    (VObj [("error", VStr "An unexpected error occurred while processing the file.");
           ("details", VStr (TypeError_message P "extractedText.length"));
           ("processingTime", VNum (Date_now P 1 - Date_now P 0));
           ("timestamp", VStr (toISOString P))])
  /\
  fst (ServerJs.serve P (post_file f)) = json 200 (VObj [("text", v)]).
Proof.
  intros Hn Hs Hv Hext.
  destruct v; try discriminate;
    (destruct Hext as [[Hd Hlib] | [Hp Hlib]]; name_given f;
     [ pose proof (endsWith_toLowerCase _ _ eq_refl Hd) as Hld
     | pose proof (endsWith_toLowerCase _ _ eq_refl Hp) as Hlp;
       pose proof (endsWith_pdf_not_docx _ Hp) as Hd;
       pose proof (endsWith_pdf_not_docx _ Hlp) as Hld ]);
    repeat split; by_handler; reflexivity.
Qed.

Lemma extraction_without_text_witness :
  fst (Part000.serve (resolves VUndefined) (post_file (named "a.pdf" bytes))) =
  json 500 (VObj [("error", VStr "Unexpected error during file processing.");
                  ("details", VStr "Cannot read properties of undefined")]).
Proof.
  apply (extraction_without_text (resolves VUndefined) (named "a.pdf" bytes)
           VUndefined).
  - reflexivity.
  - vm_compute. discriminate.
  - reflexivity.
  - right. split; reflexivity.
Defined.

End UploadEdges.

(** ** Uploads: what a 200 guarantees, how the enhanced servers compare *)

(** The cases of an upload to an enhanced server: skipped by multer for
    want of a file name, refused for its size or its field name, or handed
    to the handler. *)
Ltac on_multer f :=
  destruct (String.eqb (Express.originalname f) "") eqn:Hname;
  [ apply String.eqb_eq in Hname
  | apply String.eqb_neq in Hname;
    destruct (String.eqb (Express.fieldname f) "file") eqn:Hfield;
    [ apply String.eqb_eq in Hfield;
      destruct (Z.ltb (10 * 1024 * 1024)
                  (Z.of_nat (List.length (Express.buffer f)))) eqn:Hsize;
      [ apply Z.ltb_lt in Hsize | apply Z.ltb_ge in Hsize ]
    | apply String.eqb_neq in Hfield ] ].

Section UploadGuarantees.
Import JS Express Requests Samples Observations.

Lemma trim_not_blank (s : string) :
  (JS.length (trim s) =? 0) = false -> trim s <> "".
Proof. intros H E. rewrite E in H. discriminate. Qed.

(** X5.  The enhanced servers never answer an upload with 200 and a blank
    text: a 200 carries a string [text] that is not empty after trimming,
    and [metadata.extractedLength] is its length, whatever the libraries
    do. *)
Theorem upload_ok_has_text (P : Platform) (f : File) :
  let guarantee (r : Response) :=
    status r = 200 ->
    exists text,
      field r "text" = VStr text /\
      trim text <> "" /\
      get (field r "metadata") "extractedLength" = VNum (JS.length text) in
  guarantee (fst (Part000.serve P (post_file f))) /\
  guarantee (fst (Part001.serve P (post_file f))).
Proof.
  intros guarantee. subst guarantee. cbv beta. split.
  - on_multer f.
    + rewrite (Part000_nameless P f Hname). discriminate.
    + rewrite (Part000_too_large P f Hname Hfield Hsize). discriminate.
    + on_suffix P f (toLowerCase (originalname f));
        try destruct (trim s =? "")%string eqn:Htrim;
        by_handler; try discriminate.
      * intros _. exists s. repeat split. now apply String.eqb_neq.
      * intros _. exists s. repeat split. now apply String.eqb_neq.
    + rewrite (Part000_unexpected_field P f Hname Hfield). discriminate.
  - on_multer f.
    + rewrite (Part001_nameless P f Hname). discriminate.
    + rewrite (Part001_too_large P f Hname Hfield Hsize). discriminate.
    + on_suffix P f (toLowerCase (originalname f));
        try destruct b; try destruct (z =? 0) eqn:Hz;
        try (destruct (s =? "")%string eqn:Hs0;
             [ | destruct (JS.length (trim s) =? 0) eqn:Htrim ]);
        by_handler; try discriminate.
      * intros _. exists s. repeat split. now apply trim_not_blank.
      * intros _. exists s. repeat split. now apply trim_not_blank.
    + rewrite (Part001_unexpected_field P f Hname Hfield). discriminate.
Qed.

Lemma upload_ok_has_text_witness :
  exists text,
    field (fst (Part000.serve (reads " Hello ") (post_file (named "a.pdf" bytes))))
      "text" = VStr text /\
    trim text <> "" /\
    get (field (fst (Part000.serve (reads " Hello ")
                       (post_file (named "a.pdf" bytes)))) "metadata")
      "extractedLength" = VNum (JS.length text).
Proof.
  apply (proj1 (upload_ok_has_text (reads " Hello ") (named "a.pdf" bytes))).
  reflexivity.
Defined.



(** The two servers part ways when a library resolves with [0]: part_000
    fails on [trim] (500), part_001 takes it for an empty text (422). *)
Lemma enhanced_servers_differ_on_zero :
  status (fst (Part000.serve (resolves (VNum 0)) (post_file (named "a.pdf" bytes))))
  = 500 /\
  status (fst (Part001.serve (resolves (VNum 0)) (post_file (named "a.pdf" bytes))))
  = 422.
Proof. split; reflexivity. Qed.

End UploadGuarantees.

(** ** What a request makes the libraries do *)

Section LibraryCalls.
Import JS Express Requests Samples Observations.

(** Routes look at the request only, not at what middleware set on it. *)
Lemma route_matches_request m route (a b : Req) :
  request a = request b -> route_matches m route a = route_matches m route b.
Proof. unfold route_matches. now intros ->. Qed.

Section Invariant.
Variable T : Request -> list LibCall -> Prop.
Hypothesis T_nil : forall r, T r [].

Lemma run_chain_quiet m route chain :
  Forall (fun mw => forall req,
              linked req -> route_matches m route req = true ->
              quiet (T (request req)) req (mw req)) chain ->
  forall req, linked req -> route_matches m route req = true ->
              quiet (T (request req)) req (run_chain chain req).
Proof.
  induction 1 as [|mw chain Hmw _ IH]; intros req Hl Hr; cbn [run_chain].
  - repeat split; assumption.
  - specialize (Hmw req Hl Hr).
    destruct (mw req) as [[req1 [r1| |e1]] t1]; try exact Hmw.
    destruct Hmw as (Hreq & Hl1 & Ht). cbn in Hreq, Hl1, Ht. subst t1.
    rewrite (route_matches_request m route req req1) in Hr by (symmetry; exact Hreq).
    specialize (IH req1 Hl1 Hr).
    destruct (run_chain chain req1) as [[req2 s2] t2].
    destruct IH as (Hreq2 & Hl2 & Ht2). cbn in Hreq2, Hl2, Ht2.
    rewrite Hreq in Hreq2, Ht2.
    split; [exact Hreq2|]. split; [exact Hl2|]. exact Ht2.
Qed.

(** When every layer is quiet, the calls of a request are as [T] allows. *)
Lemma dispatch_quiet stack :
  Forall (layer_quiet T) stack ->
  forall err req, linked req -> T (request req) (snd (dispatch stack err req)).
Proof.
  intros Hstack. induction Hstack as [|l stack Hl _ IH]; intros err req Hlink.
  - apply T_nil.
  - assert (Hresume : forall s, quiet (T (request req)) req s ->
                                T (request req) (snd (resume stack s))).
    { intros [[req' [r| |e]] t] (Hreq & Hl' & Ht); cbn in Hreq, Hl', Ht;
        cbn [resume].
      - exact Ht.
      - subst t. specialize (IH None req' Hl'). rewrite Hreq in IH.
        now destruct (dispatch stack None req').
      - subst t. specialize (IH (Some e) req' Hl'). rewrite Hreq in IH.
        now destruct (dispatch stack (Some e) req'). }
    destruct l as [mw | m route chain | mw], err as [e|];
      autorewrite with dispatch; try (apply IH; exact Hlink).
    + apply Hresume, Hl, Hlink.
    + destruct (route_matches m route req) eqn:Hr; [|apply IH; exact Hlink].
      apply Hresume. now apply (run_chain_quiet m route chain Hl).
    + apply Hresume, Hl, Hlink.
Qed.

End Invariant.

(** The middleware of the packages call no library. *)
Lemma cors_quiet T req :
  T [] -> linked req -> quiet T req (cors req).
Proof.
  intros HT Hl. unfold cors.
  destruct (method (request req)); repeat split; assumption.
Qed.

Lemma express_json_quiet T P req :
  linked req -> quiet T req (express_json P req).
Proof.
  intros Hl. unfold express_json.
  destruct (payload (request req)) as [|n [[]|]|];
    try destruct (json_limit <? n); repeat split; assumption.
Qed.

(** [single] is where [req.file] gets linked to the request. *)
Lemma single_quiet T M name req :
  linked req -> quiet T req (single M name req).
Proof.
  intros Hl. unfold single.
  destruct (payload (request req)) as [| |files] eqn:Hp;
    try destruct (named_files files) as [|f [|g more]] eqn:Hfiles;
    repeat match goal with
           | |- context [if ?b then _ else _] => destruct b
           end;
    repeat split; try assumption.
  exists files. split; assumption.
Qed.

(** A handler that calls no library. *)
Lemma silent_handler_quiet T h req :
  T [] -> linked req ->
  (exists r, h req = (Normal r, []) \/ h req = (Return r, [])) ->
  quiet T req (handler h req).
Proof.
  intros HT Hl [r [E | E]]; unfold handler; rewrite E; repeat split; assumption.
Qed.

(** The upload handlers: at most one call, on the buffer of [req.file]. *)
Lemma Part000_post_upload_calls P req :
  calls_of_handler req (Part000.post_upload P req).
Proof.
  unfold calls_of_handler, Part000.post_upload.
  destruct (file req) as [f|]; [|now left].
  on_suffix P f (toLowerCase (originalname f));
    try destruct (trim s =? "")%string eqn:Htrim;
    cbn -[Z.mul Z.sub Z.of_nat List.length]; try rewrite Htrim;
    cbn -[Z.mul Z.sub Z.of_nat List.length]; eauto 6.
Qed.

Lemma Part001_post_upload_calls P req :
  calls_of_handler req (Part001.post_upload P req).
Proof.
  unfold calls_of_handler, Part001.post_upload, Part001.trims_to_nothing.
  destruct (file req) as [f|]; [|now left].
  on_suffix P f (toLowerCase (originalname f));
    try destruct b; try destruct (z =? 0) eqn:Hz;
    try (destruct (s =? "")%string eqn:Hs0;
         [ | destruct (JS.length (trim s) =? 0) eqn:Htrim ]);
    cbn -[Z.mul Z.sub Z.of_nat List.length];
    repeat (use_facts; cbn -[Z.mul Z.sub Z.of_nat List.length]); eauto 6.
Qed.

Lemma ServerJs_post_upload_calls P req :
  calls_of_handler req (ServerJs.post_upload P req).
Proof.
  unfold calls_of_handler, ServerJs.post_upload.
  destruct (file req) as [f|]; [|now left].
  destruct (endsWith (originalname f) ".docx") eqn:Hd;
    [ destruct (mammoth_extractRawText P (buffer f)) as [v|e] eqn:Hlib
    | destruct (endsWith (originalname f) ".pdf") eqn:Hp;
      [ destruct (pdf P (buffer f)) as [v|e] eqn:Hlib | ] ];
    cbn; eauto 6.
Qed.

(** On the [/upload] route, what the handler calls is what the request
    allows. *)
Lemma upload_handler_quiet h req :
  calls_of_handler req (h req) ->
  linked req -> route_matches POST "/upload" req = true ->
  quiet (extraction_of (request req)) req (handler h req).
Proof.
  intros Hc Hl Hr. unfold handler, calls_of_handler in *.
  apply andb_true_iff in Hr as [Hm Hpath].
  assert (Hpost : method (request req) = POST).
  { unfold method_matches in Hm. now destruct (method (request req)). }
  assert (Hok : forall t,
             (t = [] \/
              exists f, file req = Some f /\
                        (t = [CallMammoth (buffer f)] \/ t = [CallPdf (buffer f)])) ->
             extraction_of (request req) t).
  { intros t [-> | (f & Hf & Ht)]; [now left|]. right. exists f.
    unfold linked in Hl. rewrite Hf in Hl. repeat split; assumption. }
  destruct (h req) as [[r|r|e] t]; [ | | contradiction];
    repeat split; try assumption; now apply Hok.
Qed.

Lemma Part000_post_analyze_silent P req :
  exists r, Part000.post_analyze P req = (Normal r, []) \/
            Part000.post_analyze P req = (Return r, []).
Proof.
  unfold Part000.post_analyze, member.
  destruct (body req); cbn; eexists; left; reflexivity.
Qed.

Lemma on_error_silent (h : Error -> Req -> Run Response) e req :
  (exists r, h e req = (Normal r, []) \/ h e req = (Return r, [])) ->
  forall T, T [] -> linked req -> quiet T req (error_handler h e req).
Proof. intros H T HT Hl. now apply silent_handler_quiet. Qed.

Ltac silent :=
  first
    [ apply cors_quiet; [now left | assumption]
    | apply express_json_quiet; assumption
    | apply single_quiet; assumption
    | apply upload_handler_quiet;
      [ first [ apply Part000_post_upload_calls
              | apply Part001_post_upload_calls
              | apply ServerJs_post_upload_calls ]
      | assumption | assumption ]
    | apply silent_handler_quiet;
      [ now left | assumption
      | first [ apply Part000_post_analyze_silent
              | eexists; left; reflexivity ] ]
    | apply on_error_silent; [ | now left | assumption ];
      unfold Part000.on_error, Part001.on_error;
      match goal with
      | |- context [if ?b then _ else _] =>
          destruct b; eexists; [right | left]; reflexivity
      end ].

(** X7.  Whatever the request and whatever the libraries do, a server calls
    an extraction library at most once per request, and only for a POST to
    [/upload] that carries exactly one file part with a file name: the call
    is made on the buffer of that file.  No other route, and no error path,
    touches the libraries. *)
Theorem library_calls (P : Platform) (r : Request) :
  extraction_of r (snd (Part000.serve P r)) /\
  extraction_of r (snd (Part001.serve P r)) /\
  extraction_of r (snd (ServerJs.serve P r)).
Proof.
  unfold Part000.serve, Part001.serve, ServerJs.serve,
    Part000.app, Part001.app, ServerJs.app.
  repeat split;
    (apply (dispatch_quiet extraction_of);
     [ now left
     | repeat (apply Forall_cons || apply Forall_nil); cbn [layer_quiet];
       repeat (apply Forall_cons || apply Forall_nil); intros; silent
     | exact I ]).
Qed.

(** The property at work: an upload calls one library once, also when a
    part without a file name comes with the file; a request to another
    route calls none even when it carries a file. *)
Lemma library_calls_examples :
  snd (Part000.serve (reads "Hello") (post_file (named "a.pdf" bytes))) =
  [CallPdf bytes] /\
  snd (Part000.serve (reads "Hello")
         (request_of POST "/upload"
            (MultipartPayload [named "" bytes; named "a.pdf" bytes]))) =
  [CallPdf bytes] /\
  snd (Part000.serve (reads "Hello")
         (request_of POST "/analyze" (MultipartPayload [named "a.pdf" bytes]))) =
  [] /\
  snd (ServerJs.serve (reads "Hello")
         (request_of PUT "/upload" (MultipartPayload [named "a.pdf" bytes]))) =
  [].
Proof. repeat split. Qed.

End LibraryCalls.

(** ** /analyze on every kind of JSON field *)

Section AnalyzeMore.
Import JS Express Requests Samples Notions Observations.

(** [JSON.stringify] leaves a value that came from [JSON.parse] as it is. *)
Lemma wire_json : forall v, is_json v = true -> wire v = v.
Proof.
  fix IH 1. intros [| |b|z|s|l|ps] H; try reflexivity; try discriminate.
  - cbn [wire]. f_equal. cbn [is_json] in H.
    induction l as [|e l IHl]; [reflexivity|].
    apply andb_true_iff in H as [He Hl].
    cbn [map]. rewrite (IHl Hl). f_equal.
    pose proof (IH e He) as Hw.
    destruct e; try exact Hw. discriminate.
  - cbn [wire]. f_equal. cbn [is_json] in H.
    induction ps as [|[k w] ps IHps]; [reflexivity|].
    apply andb_true_iff in H as [Hw Hps].
    rewrite (IHps Hps).
    pose proof (IH w Hw) as E.
    destruct w; try (rewrite E; reflexivity). discriminate.
Qed.

Lemma count_counted (o : option value) :
  is_object o = false ->
  ToString (logical_or (opt_length (match o with
                                    | Some w => w
                                    | None => VUndefined
                                    end)) (VNum 0)) =
  string_of_Z (counted o).
Proof.
  destruct o as [[| |b|z|s|l|ps]|]; intros Ho; try reflexivity;
    try discriminate.
  - apply count_of_string.
  - unfold logical_or, counted.
    cbn [opt_length get String.eqb Ascii.eqb Bool.eqb truthy].
    destruct (Z.of_nat (List.length l) =? 0) eqn:E; cbn [negb]; [|reflexivity].
    apply Z.eqb_eq in E. now rewrite E.
Qed.

(** X8.  For every JSON object that reaches the handler of [/analyze] and
    holds no object in its two fields, the two numbers in the summary are,
    field by field: the length of a string, the number of elements of an
    array, and 0 for a number, a boolean, [null] or a missing field. *)
Theorem analyze_counts (P : Platform) (bytes : Z)
    (props : list (string * value)) :
  passes (express_json P) (incoming (post_json "/analyze" bytes (VObj props))) ->
  is_object (lookup "accommodations" props) = false ->
  is_object (lookup "lessonPlan" props) = false ->
  field (fst (Part000.serve P (post_json "/analyze" bytes (VObj props))))
    "summary" =
  VStr (summary_text (string_of_Z (counted (lookup "accommodations" props)))
                     (string_of_Z (counted (lookup "lessonPlan" props)))).
Proof.
  intros Hj Ha Hl.
  erewrite Part000_analyze_served; [ | exact Hj | ].
  2:{ unfold Part000.post_analyze, member.
      cbn [body get bind ret try_catch settled app]. reflexivity. }
  rewrite (count_counted _ Ha), (count_counted _ Hl). reflexivity.
Qed.

Lemma analyze_counts_witness :
  field (fst (Part000.serve (reads "")
                (post_json "/analyze" 47
                   (VObj [("accommodations", VArr [VStr "a"; VStr "b"]);
                          ("lessonPlan", VNum 12345)])))) "summary" =
  VStr "Accommodations and lesson plan received (2 / 0 characters).".
Proof.
  apply (analyze_counts (reads "") 47
           [("accommodations", VArr [VStr "a"; VStr "b"]);
            ("lessonPlan", VNum 12345)]); reflexivity.
Defined.

(** An object in a field counts for its own [length] property, printed as
    the engine prints a number. *)
Lemma analyze_counts_of_objects :
  let summary_for (length : Z) :=
    field (fst (Part000.serve (reads "")
                  (post_json "/analyze" 60
                     (VObj [("accommodations", VObj [("length", VNum length)]);
                            ("lessonPlan", VObj [])])))) "summary" in
  summary_for 7 =
  VStr "Accommodations and lesson plan received (7 / 0 characters)." /\
  summary_for (10 ^ 21) =
  VStr "Accommodations and lesson plan received (1e+21 / 0 characters)." /\
  summary_for (2 ^ 64) =
  VStr "Accommodations and lesson plan received (18446744073709552000 / 0 characters).".
Proof. repeat split; vm_compute; reflexivity. Qed.

(** X9.  [/analyze] echoes what it was sent: for every JSON object that
    reaches the handler and whose two fields are present, [received] holds
    exactly those two values, whatever their JSON type, and the status is
    200. *)
Theorem analyze_echo (P : Platform) (bytes : Z)
    (props : list (string * value)) (a l : value) :
  passes (express_json P) (incoming (post_json "/analyze" bytes (VObj props))) ->
  lookup "accommodations" props = Some a ->
  lookup "lessonPlan" props = Some l ->
  is_json a = true ->
  is_json l = true ->
  let r := fst (Part000.serve P (post_json "/analyze" bytes (VObj props))) in
  status r = 200 /\
  field r "received" = VObj [("accommodations", a); ("lessonPlan", l)].
Proof.
  intros Hj Ha Hl Ja Jl r. subst r.
  erewrite Part000_analyze_served; [ | exact Hj | ].
  2:{ unfold Part000.post_analyze, member.
      cbn [body get bind ret try_catch]. rewrite Ha, Hl.
      cbn [bind ret try_catch settled app]. reflexivity. }
  cbn [fst]. unfold json. rewrite wire_json.
  - split; reflexivity.
  - cbn [is_json]. rewrite Ja, Jl. reflexivity.
Qed.

Lemma analyze_echo_witness :
  let r := fst (Part000.serve (reads "")
                  (post_json "/analyze" 86
                     (VObj [("lessonPlan", VObj [("title", VStr "Fractions");
                                                 ("minutes", VNum 45)]);
                            ("accommodations", VArr [VStr "extra time"; VNull])]))) in
  status r = 200 /\
  field r "received" =
  VObj [("accommodations", VArr [VStr "extra time"; VNull]);
        ("lessonPlan", VObj [("title", VStr "Fractions"); ("minutes", VNum 45)])].
Proof.
  apply (analyze_echo (reads "") 86); reflexivity.
Defined.

(** X10.  Without a JSON body, [/analyze] sees the [req.body] Express left:
    when that is [undefined] or [null], destructuring throws and the
    handler's [catch] answers 500 "Failed to analyze input." with the
    engine's message under [details]; otherwise the answer is 200.  No
    library is called. *)
Theorem analyze_without_body (P : Platform) :
  let r := Part000.serve P (request_of POST "/analyze" NoPayload) in
  snd r = [] /\
  status (fst r) = (if nullish (unparsed_body P) then 500 else 200) /\
  (nullish (unparsed_body P) = true ->
   fst r = json 500 (VObj [("error", VStr "Failed to analyze input.");
                           ("details", VStr (TypeError_message P "req.body"))])).
Proof.
  intros r. subst r.
  unfold Part000.serve, Part000.app, request_of. walk.
  unfold handler, Part000.post_analyze, member. cbn [run_chain body].
  destruct (unparsed_body P) as [| |b|z|s|l|ps] eqn:E; cbn [nullish];
    cbn [bind ret try_catch throw app resume fst snd];
    repeat split; discriminate.
Qed.

Lemma analyze_without_body_examples :
  fst (Part000.serve (resolves VNull) (request_of POST "/analyze" NoPayload)) =
  json 500 (VObj [("error", VStr "Failed to analyze input.");
                  ("details", VStr "Cannot read properties of undefined")]) /\
  field (fst (Part000.serve (reads "") (request_of POST "/analyze" NoPayload)))
    "summary" =
  VStr "Accommodations and lesson plan received (0 / 0 characters).".
Proof. split; reflexivity. Qed.

End AnalyzeMore.

(** ** Bodies the parser refuses *)

Section RefusedBodies.
Import JS Express Requests Samples Observations.

(** X12.  In part_000 the JSON parser runs before every route: a request
    whose body it refuses (over 100kb, not JSON, or not an object or array)
    is answered 500 "Internal server error" by the error middleware,
    whatever its method (but OPTIONS) and path, even on a route that
    exists; the status 413 or 400 the parser put on the error is not used,
    and no handler runs. *)
Theorem refused_body_is_500 (P : Platform) (r : Request) :
  passes cors (incoming r) ->
  ~ passes (express_json P) (incoming r) ->
  Part000.serve P r =
  (json 500 (VObj [("error", VStr "Internal server error");
                   ("timestamp", VStr (toISOString P))]), []).
Proof.
  intros Hc Hj. unfold Part000.serve, Part000.app.
  rewrite dispatch_Use, (cors_passes _ Hc), resume_Next, dispatch_Use.
  unfold passes in Hj. unfold express_json in *.
  cbn [incoming request] in *.
  destruct (payload r) as [|n [[]|]|]; try destruct (json_limit <? n);
    cbn in Hj; try (now destruct Hj);
    rewrite resume_NextErr; now autorewrite with dispatch.
Qed.

Lemma refused_body_is_500_witness :
  Part000.serve (reads "") (request_of GET "/health" (JsonPayload 9 None)) =
  (json 500 (VObj [("error", VStr "Internal server error");
                   ("timestamp", VStr "2023-11-14T22:13:20.000Z")]), []).
Proof.
  apply (refused_body_is_500 (reads "")
           (request_of GET "/health" (JsonPayload 9 None))).
  - reflexivity.
  - discriminate.
Defined.

(** The property at work on [/analyze]: the same fields are answered 200 in
    a body of 100kb and 500 in a body of one byte more. *)
Lemma refused_body_examples :
  let fields := VObj [("accommodations", VStr "abc"); ("lessonPlan", VStr "")] in
  status (fst (Part000.serve (reads "") (post_json "/analyze" (100 * 1024) fields)))
  = 200 /\
  Part000.serve (reads "") (post_json "/analyze" (100 * 1024 + 1) fields) =
  (json 500 (VObj [("error", VStr "Internal server error");
                   ("timestamp", VStr "2023-11-14T22:13:20.000Z")]), []).
Proof. split; reflexivity. Qed.

End RefusedBodies.
